(** * Motorcycle repair shop directory: classifier, normalizer, indexer

    A shallow embedding of the pure core of three scripts:
    - [osm_mc_repair_extractor.py]: the tag classifier of the OSM handler;
    - [convert_osm_to_json.py]: the CSV row normalizer, the country/city
      index and the conversion loop;
    - [migrate_to_supabase.py]: the shop transformation and the validity
      check applied before upload.

    Downloading, file reading and writing, printing and the database client
    are outside the embedding: the conversion loop takes the list of rows the
    CSV reader produced, the migrator takes the list of shops the JSON reader
    produced.

    Conventions.  A Python [str] is a Rocq [string] with one [ascii] per code
    point, so the embedding covers text over the code points 0..255.  A
    [Dict[str, str]] and an OSM tag list are a [gmap string string].  A Python
    [float] is a binary64 value of [spec_float].  An exception is the [Raise]
    constructor of [Py.result].

    A row of [csv.DictReader] holds the value None for every name of the
    header that a short line has no field for.  [Converter] embeds the
    converter on rows of texts; [Reader] embeds the normalizer and the
    conversion loop again on rows with such values, where the methods
    [strip] and [lower] of a None raise AttributeError. *)

From Stdlib Require Import ZArith NArith String Ascii List.
From Stdlib Require Import SpecFloat.
From stdpp Require Import gmap strings list sorting.

(** ** The Python builtins the scripts rely on *)
Module Py.

(** *** Exceptions *)

Inductive exn : Set := ValueError | AttributeError.

Inductive result (A : Type) : Type :=
| Ok (a : A)
| Raise (e : exn).
Arguments Ok {A} a.
Arguments Raise {A} e.

Definition bind {A B} (r : result A) (k : A → result B) : result B :=
  match r with
  | Ok a => k a
  | Raise e => Raise e
  end.

#[global] Instance result_ret : MRet result := @Ok.
#[global] Instance result_bind : MBind result := λ A B k r, bind r k.

(** *** Characters *)

Definition ord (c : ascii) : N := N_of_ascii c.
Definition chr (n : N) : ascii := ascii_of_N n.

Definition in_range (lo hi n : N) : bool := (lo <=? n)%N && (n <=? hi)%N.

(** [str.isspace] on one character: the code points below 256 whose category
    is Zs or whose bidirectional class is WS, B or S. *)
Definition isspace (c : ascii) : bool :=
  let n := ord c in
  in_range 9 13 n || in_range 28 32 n || (n =? 133)%N || (n =? 160)%N.

(** The C locale [Py_ISSPACE] and [Py_ISDIGIT] tests of the interpreter. *)
Definition c_isspace (c : ascii) : bool :=
  let n := ord c in in_range 9 13 n || (n =? 32)%N.

Definition isdigit (c : ascii) : bool := in_range 48 57 (ord c).

(** [str.upper] on one character.  The sharp s becomes two letters.  The
    micro sign (181) and the y with diaeresis (255) have upper-case forms
    above code point 255; they are kept as they are, which like their true
    images are not ASCII letters. *)
Definition upper_char (c : ascii) : string :=
  let n := ord c in
  if in_range 97 122 n then String (chr (n - 32)) ""
  else if (n =? 223)%N then "SS"
  else if in_range 224 254 n && negb (n =? 247)%N then String (chr (n - 32)) ""
  else String c "".

(** [str.lower] on one character. *)
Definition lower_char (c : ascii) : ascii :=
  let n := ord c in
  if in_range 65 90 n then chr (n + 32)
  else if in_range 192 222 n && negb (n =? 215)%N then chr (n + 32)
  else c.

(** *** Strings *)

Fixpoint upper (s : string) : string :=
  match s with
  | "" => ""
  | String c s' => upper_char c +:+ upper s'
  end.

Fixpoint lower (s : string) : string :=
  match s with
  | "" => ""
  | String c s' => String (lower_char c) (lower s')
  end.

Fixpoint lstrip (s : string) : string :=
  match s with
  | "" => ""
  | String c s' => if isspace c then lstrip s' else s
  end.

Fixpoint rstrip (s : string) : string :=
  match s with
  | "" => ""
  | String c s' =>
      match rstrip s' with
      | "" => if isspace c then "" else String c ""
      | r => String c r
      end
  end.

(** [s.strip()] *)
Definition strip (s : string) : string := rstrip (lstrip s).

(** [s.startswith(p)] *)
Fixpoint startswith (p s : string) : bool :=
  match p, s with
  | "", _ => true
  | String a p', String b s' => bool_decide (a = b) && startswith p' s'
  | String _ _, "" => false
  end.

(** [sub in s] for two strings *)
Fixpoint contains (sub s : string) : bool :=
  startswith sub s ||
  match s with
  | "" => false
  | String _ s' => contains sub s'
  end.

(** [s.split(sep)] for a non-empty [sep] (the scripts split on a literal
    only): a scan from the left that cuts at every occurrence of [sep] and
    resumes after it.  [skip] counts the characters of the separator still
    to be passed over.  The result is the current piece and the later
    pieces. *)
Fixpoint split_go (sep : string) (skip : nat) (s : string) : string * list string :=
  match s with
  | "" => ("", [])
  | String c s' =>
      match skip with
      | S k => split_go sep k s'
      | O =>
          if startswith sep s
          then let '(p, ps) := split_go sep (String.length sep - 1) s' in ("", p :: ps)
          else let '(p, ps) := split_go sep 0 s' in (String c p, ps)
      end
  end.

Definition split (sep s : string) : list string :=
  let '(p, ps) := split_go sep 0 s in p :: ps.

(** [sep.join(l)] *)
Fixpoint join (sep : string) (l : list string) : string :=
  match l with
  | [] => ""
  | [x] => x
  | x :: l' => x +:+ sep +:+ join sep l'
  end.

(** *** Truth values *)

(** Truth value of a string, of the result of [d.get(k)], of a float and
    of an optional float. *)
Definition truthy_str (s : string) : bool := negb (bool_decide (s = "")).

Definition truthy_get (o : option string) : bool :=
  match o with
  | Some s => truthy_str s
  | None => false
  end.

Definition truthy_float (x : spec_float) : bool :=
  match x with
  | S754_zero _ => false
  | _ => true
  end.

Definition truthy_opt_float (o : option spec_float) : bool :=
  match o with
  | Some x => truthy_float x
  | None => false
  end.

(** [d.get(k) or rest] where [rest] is a string *)
Definition get_or (o : option string) (rest : string) : string :=
  match o with
  | Some s => if truthy_str s then s else rest
  | None => rest
  end.

(** [d.get(k, '')] *)
Definition get_default (o : option string) : string := default "" o.

(** *** [float(s)] for a string [s]

    The interpreter first maps every character that is not ASCII to a
    space (if it is white space) or to its decimal digit value; no code
    point in 127..255 is a decimal digit, so such a character becomes a
    question mark and the text is cut after it. *)
Fixpoint to_ascii_decimal (s : string) : string :=
  match s with
  | "" => ""
  | String c s' =>
      if (ord c <? 127)%N then String c (to_ascii_decimal s')
      else if isspace c then String " " (to_ascii_decimal s')
      else "?"
  end.

(** Underscores are removed; each must stand between two digits.  [prev] is
    the character before the current one. *)
Fixpoint remove_underscores (prev : ascii) (s : string) : option string :=
  match s with
  | "" => if bool_decide (prev = "_"%char) then None else Some ""
  | String c s' =>
      if bool_decide (c = "_"%char)
      then if isdigit prev then remove_underscores c s' else None
      else if bool_decide (prev = "_"%char) && negb (isdigit c) then None
      else String c <$> remove_underscores c s'
  end.

(** Leading and trailing C white space is dropped. *)
Fixpoint c_lstrip (s : string) : string :=
  match s with
  | "" => ""
  | String c s' => if c_isspace c then c_lstrip s' else s
  end.

Fixpoint c_rstrip (s : string) : string :=
  match s with
  | "" => ""
  | String c s' =>
      match c_rstrip s' with
      | "" => if c_isspace c then "" else String c ""
      | r => String c r
      end
  end.

(** An optional sign: [true] for minus. *)
Definition take_sign (s : string) : bool * string :=
  match s with
  | String "-" s' => (true, s')
  | String "+" s' => (false, s')
  | _ => (false, s)
  end.

(** The longest prefix of decimal digits, as digit values, and the rest. *)
Fixpoint take_digits (s : string) : list N * string :=
  match s with
  | String c s' =>
      if isdigit c
      then let '(ds, r) := take_digits s' in ((ord c - 48)%N :: ds, r)
      else ([], s)
  | "" => ([], "")
  end.

Definition digits_value (ds : list N) : N :=
  foldl (λ acc d, (10 * acc + d)%N) 0%N ds.

(** The binary64 value nearest to [m * 10 ^ e10], ties to even, signed by
    [neg].  A negative exponent is a division: the quotient is taken with
    1128 extra binary digits, below the last digit of every binary64
    number, and the remainder tells on which side of the midpoint the
    exact value lies. *)
Definition binary64_of_decimal (neg : bool) (m : N) (e10 : Z) : spec_float :=
  match m with
  | N0 => S754_zero neg
  | Npos p =>
      match e10 with
      | Zneg k =>
          let d := (10 ^ Zpos k)%Z in
          let n := (Zpos p * 2 ^ 1128)%Z in
          let q := (n / d)%Z in
          let r := (n mod d)%Z in
          let loc := if (r =? 0)%Z then loc_Exact
                     else loc_Inexact (2 * r ?= d)%Z in
          binary_round_aux 53 1024 neg q (-1128) loc
      | _ => binary_round 53 1024 neg (p * Z.to_pos (10 ^ e10)) 0
      end
  end.

(** A decimal literal without its sign: digits, an optional point and
    digits (at least one digit in all), an optional exponent; nothing may
    follow. *)
Definition parse_decimal (neg : bool) (s : string) : option spec_float :=
  let '(ip, r1) := take_digits s in
  let '(fp, r2) :=
    match r1 with
    | String "." r => take_digits r
    | _ => ([], r1)
    end in
  if bool_decide (ip ++ fp = []) then None
  else
    let m := digits_value (ip ++ fp) in
    let scale := Z.of_nat (length fp) in
    match r2 with
    | "" => Some (binary64_of_decimal neg m (- scale))
    | String c r =>
        if bool_decide (c = "e"%char) || bool_decide (c = "E"%char)
        then
          let '(eneg, r3) := take_sign r in
          match take_digits r3 with
          | (d :: ds, "") =>
              let e := Z.of_N (digits_value (d :: ds)) in
              Some (binary64_of_decimal neg m ((if eneg then - e else e) - scale))
          | _ => None
          end
        else None
    end.

(** An infinity or a not-a-number, in any letter case. *)
Definition parse_inf_or_nan (neg : bool) (s : string) : option spec_float :=
  let l := lower s in
  if bool_decide (l = "inf") || bool_decide (l = "infinity")
  then Some (S754_infinity neg)
  else if bool_decide (l = "nan") then Some S754_nan
  else None.

Definition float_of_str (s : string) : result spec_float :=
  match remove_underscores "000"%char (to_ascii_decimal s) with
  | None => Raise ValueError
  | Some t =>
      let body := c_rstrip (c_lstrip t) in
      let '(neg, u) := take_sign body in
      match parse_decimal neg u with
      | Some x => Ok x
      | None =>
          match parse_inf_or_nan neg u with
          | Some x => Ok x
          | None => Raise ValueError
          end
      end
  end.

(** *** [sorted] on strings and on dictionary items with distinct keys

    Strings compare by code point, which is [String.le].  Items are
    (key, value) tuples: distinct keys decide the comparison, the values
    are never compared. *)
Definition sorted_str (l : list string) : list string := merge_sort String.le l.

Definition item_le {V} (a b : string * V) : Prop := String.le a.1 b.1.

#[global] Instance item_le_dec {V} : RelDecision (@item_le V).
Proof. intros a b. unfold item_le. apply _. Defined.

Definition sorted_items {V} (l : list (string * V)) : list (string * V) :=
  merge_sort item_le l.

(** *** More string methods, paths and ranges *)

(** [s.replace(old, new)] for a non-empty [old]: the pieces between the
    occurrences of [old], joined by [new]. *)
Definition replace (old new s : string) : string := join new (split old s).

(** The characters with the Unicode property Cased, below code point 256. *)
Definition is_cased (c : ascii) : bool :=
  let n := ord c in
  in_range 65 90 n || in_range 97 122 n
  || (n =? 170)%N || (n =? 181)%N || (n =? 186)%N
  || in_range 192 214 n || in_range 216 246 n || in_range 248 255 n.

(** The title-case form of one character; as for [upper_char], the micro
    sign and the y with diaeresis are kept. *)
Definition title_char (c : ascii) : string :=
  let n := ord c in
  if in_range 97 122 n then String (chr (n - 32)) ""
  else if (n =? 223)%N then "Ss"
  else if in_range 224 254 n && negb (n =? 247)%N then String (chr (n - 32)) ""
  else String c "".

(** [s.title()]: a character that follows a cased character is put in lower
    case, any other in title case. *)
Fixpoint title_go (previous_is_cased : bool) (s : string) : string :=
  match s with
  | "" => ""
  | String c s' =>
      (if previous_is_cased then String (lower_char c) "" else title_char c)
      +:+ title_go (is_cased c) s'
  end.

Definition title (s : string) : string := title_go false s.

(** The text before and after the last occurrence of the character [c]. *)
Fixpoint rpartition (c : ascii) (s : string) : option (string * string) :=
  match s with
  | "" => None
  | String x s' =>
      match rpartition c s' with
      | Some (a, b) => Some (String x a, b)
      | None => if bool_decide (x = c) then Some ("", s') else None
      end
  end.

(** [PurePosixPath(p).name]: the last component of the path, where empty
    components and single dots do not count. *)
Definition path_name (p : string) : string :=
  default ""
    (last (filter (λ part, part ≠ "" ∧ part ≠ ".") (split "/" p))).

(** [PurePosixPath(p).stem]: the name without its last suffix; a dot at the
    start or at the end of the name starts no suffix. *)
Definition path_stem (p : string) : string :=
  let name := path_name p in
  match rpartition "." name with
  | Some (a, b) => if truthy_str a && truthy_str b then a else name
  | None => name
  end.

(** [range(0, n, step)] as a list, for [n] at least 0. *)
Definition range_from_0 (n : nat) (step : Z) : result (list nat) :=
  if bool_decide (step = 0%Z) then Raise ValueError
  else if bool_decide (step < 0)%Z then Ok []
  else
    let st := Z.to_nat step in
    Ok ((λ k, k * st) <$> seq 0 ((n + st - 1) `div` st)).

End Py.

(** ** [osm_mc_repair_extractor.py] *)
Module Extractor.

(** [MotorcycleRepairShopHandler._is_motorcycle_repair_shop]: the tags of
    an OSM element are a mapping from key to value; [tags.get(k)] is the
    lookup. *)
Definition _is_motorcycle_repair_shop (tags : gmap string string) : bool :=
  if bool_decide (tags !! "shop" ∈ [Some "motorcycle_repair"; Some "motorcycle"])
  then true
  else if bool_decide (tags !! "amenity" = Some "motorcycle_repair")
  then true
  else if bool_decide (tags !! "service:vehicle:motorcycle" = Some "yes")
          && (bool_decide (tags !! "service:vehicle:repair" = Some "yes")
              || bool_decide (tags !! "repair" = Some "yes")
              || Py.contains "repair" (Py.get_default (tags !! "craft")))
  then true
  else if bool_decide (tags !! "craft" = Some "motorcycle_repair")
  then true
  else false.

(** [GeofabrikDownloader.EU_COUNTRIES] *)
Definition EU_COUNTRIES : gmap string string :=
  list_to_map [
    ("austria", "europe/austria-latest.osm.pbf");
    ("belgium", "europe/belgium-latest.osm.pbf");
    ("bulgaria", "europe/bulgaria-latest.osm.pbf");
    ("croatia", "europe/croatia-latest.osm.pbf");
    ("cyprus", "europe/cyprus-latest.osm.pbf");
    ("czech-republic", "europe/czech-republic-latest.osm.pbf");
    ("denmark", "europe/denmark-latest.osm.pbf");
    ("estonia", "europe/estonia-latest.osm.pbf");
    ("finland", "europe/finland-latest.osm.pbf");
    ("france", "europe/france-latest.osm.pbf");
    ("germany", "europe/germany-latest.osm.pbf");
    ("greece", "europe/greece-latest.osm.pbf");
    ("hungary", "europe/hungary-latest.osm.pbf");
    ("ireland", "europe/ireland-and-northern-ireland-latest.osm.pbf");
    ("italy", "europe/italy-latest.osm.pbf");
    ("latvia", "europe/latvia-latest.osm.pbf");
    ("lithuania", "europe/lithuania-latest.osm.pbf");
    ("luxembourg", "europe/luxembourg-latest.osm.pbf");
    ("malta", "europe/malta-latest.osm.pbf");
    ("netherlands", "europe/netherlands-latest.osm.pbf");
    ("poland", "europe/poland-latest.osm.pbf");
    ("portugal", "europe/portugal-latest.osm.pbf");
    ("romania", "europe/romania-latest.osm.pbf");
    ("slovakia", "europe/slovakia-latest.osm.pbf");
    ("slovenia", "europe/slovenia-latest.osm.pbf");
    ("spain", "europe/spain-latest.osm.pbf");
    ("sweden", "europe/sweden-latest.osm.pbf") ].

(** The start of [GeofabrikDownloader.download_country], before the file
    system and the network are touched: the country is put in lower case and
    looked up, an unknown one raises ValueError, and the file is named after
    the last component of the path of the table. *)
Definition download_country_file (country : string) : Py.result string :=
  let country := Py.lower country in
  match EU_COUNTRIES !! country with
  | None => Py.Raise Py.ValueError
  | Some relative_path => Py.Ok (Py.path_name relative_path)
  end.

(** The source country that [process_pbf_file] derives from the path of the
    file and hands to the handler. *)
Definition source_country_name (pbf_file : string) : string :=
  let country_name :=
    Py.replace ".osm" "" (Py.replace "-latest" "" (Py.path_stem pbf_file)) in
  let country_name := Py.title (Py.replace "-" " " country_name) in
  let country_mapping : gmap string string :=
    {[ "Ireland And Northern Ireland" := "Ireland" ]} in
  default country_name (country_mapping !! country_name).

(** The row of the CSV file that stands for the dictionary [_add_shop]
    builds from the tags of an element.  The text columns are tag values,
    the empty string for a missing tag.  The identifier and the coordinates
    are numbers in the dictionary; the text the CSV writer gives them is a
    parameter here, as is the kind of element. *)
Definition csv_row (tags : gmap string string) (source_country : string)
    (osm_id osm_type latitude longitude : string) : gmap string string :=
  list_to_map [
    ("osm_id", osm_id);
    ("osm_type", osm_type);
    ("latitude", latitude);
    ("longitude", longitude);
    ("name", Py.get_default (tags !! "name"));
    ("shop_type", Py.get_default (tags !! "shop"));
    ("amenity", Py.get_default (tags !! "amenity"));
    ("craft", Py.get_default (tags !! "craft"));
    ("brand", Py.get_default (tags !! "brand"));
    ("operator", Py.get_default (tags !! "operator"));
    ("address_street", Py.get_default (tags !! "addr:street"));
    ("address_housenumber", Py.get_default (tags !! "addr:housenumber"));
    ("address_city", Py.get_default (tags !! "addr:city"));
    ("address_postcode", Py.get_default (tags !! "addr:postcode"));
    ("address_country", Py.get_default (tags !! "addr:country"));
    ("phone", Py.get_default (tags !! "phone"));
    ("mobile", Py.get_default (tags !! "mobile"));
    ("email", Py.get_default (tags !! "email"));
    ("website", Py.get_default (tags !! "website"));
    ("opening_hours", Py.get_default (tags !! "opening_hours"));
    ("service_motorcycle", Py.get_default (tags !! "service:vehicle:motorcycle"));
    ("service_repair", Py.get_default (tags !! "service:vehicle:repair"));
    ("source_country", source_country) ].

End Extractor.

(** ** [convert_osm_to_json.py] *)
Module Converter.

(** A CSV row as [csv.DictReader] yields it for a line that has a text for
    every name of the header.  The rows of shorter lines are in [Reader]. *)
Abbreviation Row := (gmap string string).

(** The shop object of the website JSON. *)
Record shop : Type := Shop {
  name : string;
  address : string;
  city : string;
  phone : string;
  website : string;
  rating : string;
  reviews_count : string;
  hours : string;
  latitude : option spec_float;
  longitude : option spec_float;
  business_type : string
}.

Definition determine_business_type (row : Row) : string :=
  let shop_type := Py.get_default (row !! "shop_type") in
  let amenity := Py.get_default (row !! "amenity") in
  let craft := Py.get_default (row !! "craft") in
  if bool_decide (shop_type = "motorcycle_repair")
     || bool_decide (amenity = "motorcycle_repair")
     || bool_decide (craft = "motorcycle_repair")
  then "Motorcycle Repair Shop"
  else if bool_decide (shop_type = "motorcycle")
  then "Motorcycle Dealership"
  else if Py.contains "repair" (Py.lower shop_type)
          || Py.contains "repair" (Py.lower amenity)
  then "Repair Service"
  else "Motorcycle Shop".

Definition country_map : gmap string string :=
  list_to_map [
    ("AT", "Austria"); ("BE", "Belgium"); ("BG", "Bulgaria");
    ("HR", "Croatia"); ("CY", "Cyprus"); ("CZ", "Czech Republic");
    ("DK", "Denmark"); ("EE", "Estonia"); ("FI", "Finland");
    ("FR", "France"); ("DE", "Germany"); ("GR", "Greece");
    ("HU", "Hungary"); ("IE", "Ireland"); ("IT", "Italy");
    ("LV", "Latvia"); ("LT", "Lithuania"); ("LU", "Luxembourg");
    ("MT", "Malta"); ("NL", "Netherlands"); ("PL", "Poland");
    ("PT", "Portugal"); ("RO", "Romania"); ("SK", "Slovakia");
    ("SI", "Slovenia"); ("ES", "Spain"); ("SE", "Sweden") ].

Definition get_country_name (country_code : string) : string :=
  default country_code (country_map !! Py.upper country_code).

(** [float(row[k]) if row.get(k) else None] *)
Definition parse_coordinate (row : Row) (k : string) : Py.result (option spec_float) :=
  match row !! k with
  | Some s => if Py.truthy_str s then x ← Py.float_of_str s; mret (Some x)
              else mret None
  | None => mret None
  end.

Definition parse_csv_row (row : Row) : Py.result shop :=
  (* Build full address *)
  let address_parts :=
    match row !! "address_street" with
    | Some street =>
        if Py.truthy_str street then
          let housenumber := Py.get_default (row !! "address_housenumber") in
          if Py.truthy_str housenumber
          then [street +:+ " " +:+ housenumber]
          else [street]
        else []
    | None => []
    end in
  let address :=
    match address_parts with
    | [] => "Address not available"
    | _ => Py.join ", " (filter (λ p, Py.truthy_str p) address_parts)
    end in
  (* Build city location *)
  let city_name := Py.strip (Py.get_default (row !! "address_city")) in
  let country_code := Py.strip (Py.get_default (row !! "address_country")) in
  let source_country := Py.strip (Py.get_default (row !! "source_country")) in
  let country_name :=
    if Py.truthy_str country_code then get_country_name country_code
    else if Py.truthy_str source_country then source_country
    else "" in
  let city :=
    if Py.truthy_str city_name && Py.truthy_str country_name
    then city_name +:+ ", " +:+ country_name
    else if Py.truthy_str country_name
    then "Unknown City, " +:+ country_name
    else if Py.truthy_str city_name
    then city_name +:+ ", Unknown Country"
    else "Unknown City, Unknown Country" in
  (* Contact info and opening hours *)
  let phone := Py.get_or (row !! "phone") (Py.get_or (row !! "mobile") "N/A") in
  let website := Py.get_or (row !! "website") "N/A" in
  let hours := Py.get_or (row !! "opening_hours") "Hours not available" in
  (* Coordinates *)
  latitude ← parse_coordinate row "latitude";
  longitude ← parse_coordinate row "longitude";
  let business_type := determine_business_type row in
  let name :=
    Py.get_or (row !! "name")
      (Py.get_or (row !! "operator")
         (Py.get_or (row !! "brand") "Unnamed Shop")) in
  mret {|
    name := Py.strip name;
    address := address;
    city := city;
    phone := phone;
    website := website;
    rating := "N/A";
    reviews_count := "0";
    hours := hours;
    latitude := latitude;
    longitude := longitude;
    business_type := business_type
  |}.

(** The dictionary of city sets that [build_countries_dict] fills:
    [countries[country].add(city)] on a [defaultdict(set)]. *)
Definition add_city (countries : gmap string (gset string)) (country city : string)
  : gmap string (gset string) :=
  <[country := default ∅ (countries !! country) ∪ {[city]}]> countries.

(** One turn of the loop of [build_countries_dict]. *)
Definition index_shop (countries : gmap string (gset string)) (s : shop)
  : gmap string (gset string) :=
  let city_field := city s in
  if Py.contains ", " city_field then
    let parts := Py.split ", " city_field in
    let city := Py.strip (default "" (head parts)) in
    let country := Py.strip (default "" (last parts)) in
    if Py.truthy_str city && Py.truthy_str country
    then add_city countries country city
    else countries
  else countries.

(** The result is a dictionary written in key order: a list of items. *)
Definition build_countries_dict (shops : list shop) : list (string * list string) :=
  let countries := foldl index_shop ∅ shops in
  (λ '(country, cities), (country, Py.sorted_str (elements cities)))
    <$> Py.sorted_items (map_to_list countries).

(** One turn of the conversion loop on the state (shops, skipped_count). *)
Definition convert_row (skip_unnamed : bool) (st : list shop * nat) (row : Row)
  : list shop * nat :=
  let '(shops, skipped_count) := st in
  match parse_csv_row row with
  | Py.Ok shop =>
      if skip_unnamed
         && (bool_decide (name shop = "Unnamed Shop") || negb (Py.truthy_str (name shop)))
      then (shops, skipped_count + 1)
      else if negb (Py.truthy_opt_float (latitude shop))
              || negb (Py.truthy_opt_float (longitude shop))
      then (shops, skipped_count + 1)
      else (shops ++ [shop], skipped_count)
  | Py.Raise _ => (shops, skipped_count + 1)
  end.

Definition convert_rows (skip_unnamed : bool) (rows : list Row) : list shop * nat :=
  foldl (convert_row skip_unnamed) ([], 0) rows.

(** The data written by [convert_csv_to_json] and its skip counter. *)
Record output : Type := Output {
  shops : list shop;
  countries : list (string * list string);
  skipped_count : nat
}.

Definition convert_csv_to_json (rows : list Row) (skip_unnamed : bool) : output :=
  let '(shops, skipped_count) := convert_rows skip_unnamed rows in
  {| shops := shops;
     countries := build_countries_dict shops;
     skipped_count := skipped_count |}.

End Converter.

(** ** [convert_osm_to_json.py] on the rows of short lines

    [csv.DictReader] fills a line that has fewer fields than the header with
    the value None, so a field of a row is a text or None.  (The fields that
    a line has beyond the header are a list under the key None, which the
    converter never reads.) *)
Module Reader.
Import Converter.

(** A CSV row: the value of a name is [Some] text, or [None] for None. *)
Abbreviation Row := (gmap string (option string)).

(** [row.get(k)] *)
Definition get (row : Row) (k : string) : option string := default None (row !! k).

(** [row.get(k, '')] *)
Definition get_default (row : Row) (k : string) : option string :=
  default (Some "") (row !! k).

(** [v.strip()] and [v.lower()]: a None has neither method. *)
Definition strip (v : option string) : Py.result string :=
  match v with
  | Some s => mret (Py.strip s)
  | None => Py.Raise Py.AttributeError
  end.

Definition lower (v : option string) : Py.result string :=
  match v with
  | Some s => mret (Py.lower s)
  | None => Py.Raise Py.AttributeError
  end.

Definition determine_business_type (row : Row) : Py.result string :=
  let shop_type := get_default row "shop_type" in
  let amenity := get_default row "amenity" in
  let craft := get_default row "craft" in
  if bool_decide (shop_type = Some "motorcycle_repair")
     || bool_decide (amenity = Some "motorcycle_repair")
     || bool_decide (craft = Some "motorcycle_repair")
  then mret "Motorcycle Repair Shop"
  else if bool_decide (shop_type = Some "motorcycle")
  then mret "Motorcycle Dealership"
  else
    lowered_shop_type ← lower shop_type;
    if Py.contains "repair" lowered_shop_type then mret "Repair Service"
    else
      lowered_amenity ← lower amenity;
      if Py.contains "repair" lowered_amenity then mret "Repair Service"
      else mret "Motorcycle Shop".

(** [float(row[k]) if row.get(k) else None] *)
Definition parse_coordinate (row : Row) (k : string) : Py.result (option spec_float) :=
  match get row k with
  | Some s => if Py.truthy_str s then x ← Py.float_of_str s; mret (Some x)
              else mret None
  | None => mret None
  end.

Definition parse_csv_row (row : Row) : Py.result shop :=
  (* Build full address *)
  let address_parts :=
    match get row "address_street" with
    | Some street =>
        if Py.truthy_str street then
          match get_default row "address_housenumber" with
          | Some housenumber =>
              if Py.truthy_str housenumber
              then [street +:+ " " +:+ housenumber]
              else [street]
          | None => [street]
          end
        else []
    | None => []
    end in
  let address :=
    match address_parts with
    | [] => "Address not available"
    | _ => Py.join ", " (filter (λ p, Py.truthy_str p) address_parts)
    end in
  (* Build city location *)
  city_name ← strip (get_default row "address_city");
  country_code ← strip (get_default row "address_country");
  source_country ← strip (get_default row "source_country");
  let country_name :=
    if Py.truthy_str country_code then get_country_name country_code
    else if Py.truthy_str source_country then source_country
    else "" in
  let city :=
    if Py.truthy_str city_name && Py.truthy_str country_name
    then city_name +:+ ", " +:+ country_name
    else if Py.truthy_str country_name
    then "Unknown City, " +:+ country_name
    else if Py.truthy_str city_name
    then city_name +:+ ", Unknown Country"
    else "Unknown City, Unknown Country" in
  (* Contact info and opening hours *)
  let phone := Py.get_or (get row "phone") (Py.get_or (get row "mobile") "N/A") in
  let website := Py.get_or (get row "website") "N/A" in
  let hours := Py.get_or (get row "opening_hours") "Hours not available" in
  (* Coordinates *)
  latitude ← parse_coordinate row "latitude";
  longitude ← parse_coordinate row "longitude";
  business_type ← determine_business_type row;
  let name :=
    Py.get_or (get row "name")
      (Py.get_or (get row "operator")
         (Py.get_or (get row "brand") "Unnamed Shop")) in
  mret {|
    name := Py.strip name;
    address := address;
    city := city;
    phone := phone;
    website := website;
    rating := "N/A";
    reviews_count := "0";
    hours := hours;
    latitude := latitude;
    longitude := longitude;
    business_type := business_type
  |}.

(** One turn of the conversion loop on the state (shops, skipped_count);
    [except Exception] catches every exception of the normalizer. *)
Definition convert_row (skip_unnamed : bool) (st : list shop * nat) (row : Row)
  : list shop * nat :=
  let '(shops, skipped_count) := st in
  match parse_csv_row row with
  | Py.Ok shop =>
      if skip_unnamed
         && (bool_decide (name shop = "Unnamed Shop") || negb (Py.truthy_str (name shop)))
      then (shops, skipped_count + 1)
      else if negb (Py.truthy_opt_float (latitude shop))
              || negb (Py.truthy_opt_float (longitude shop))
      then (shops, skipped_count + 1)
      else (shops ++ [shop], skipped_count)
  | Py.Raise _ => (shops, skipped_count + 1)
  end.

Definition convert_rows (skip_unnamed : bool) (rows : list Row) : list shop * nat :=
  foldl (convert_row skip_unnamed) ([], 0) rows.

End Reader.

(** ** [migrate_to_supabase.py] *)
Module Migrator.

(** A row of the [shops] table. *)
Record db_shop : Type := DbShop {
  name : option string;
  business_type : string;
  latitude : option spec_float;
  longitude : option spec_float;
  address_street : option string;
  address_city : option string;
  address_country : option string;
  phone : option string;
  website : option string;
  opening_hours : option string
}.

(** [None if v == sentinel else v] *)
Definition unless (sentinel : string) (v : option string) : option string :=
  if bool_decide (v = Some sentinel) then None else v.

(** [SupabaseMigrator.transform_shop] on a shop object of the converter.
    No step of it raises on such an object, so the handler that returns
    [None] is never entered. *)
Definition transform_shop (shop : Converter.shop) : option db_shop :=
  let city_field := Converter.city shop in
  let '(city_name, country_name) :=
    if Py.contains ", " city_field then
      let parts := Py.split ", " city_field in
      (Some (Py.strip (default "" (head parts))),
       Some (Py.strip (default "" (last parts))))
    else (None, None) in
  let city_name := unless "Unknown City" city_name in
  let country_name := unless "Unknown Country" country_name in
  let address := Converter.address shop in
  let street :=
    if Py.truthy_str address && negb (bool_decide (address = "Address not available"))
    then head (Py.split ", " address)
    else None in
  let phone := unless "N/A" (Some (Converter.phone shop)) in
  let website := unless "N/A" (Some (Converter.website shop)) in
  let hours := unless "Hours not available" (Some (Converter.hours shop)) in
  Some {|
    name := Some (Converter.name shop);
    business_type := Converter.business_type shop;
    latitude :=
      if Py.truthy_opt_float (Converter.latitude shop)
      then Converter.latitude shop else None;
    longitude :=
      if Py.truthy_opt_float (Converter.longitude shop)
      then Converter.longitude shop else None;
    address_street := street;
    address_city := city_name;
    address_country := country_name;
    phone := phone;
    website := website;
    opening_hours := hours
  |}.

(** The validity check of [migrate_shops]:
    [transformed and transformed['latitude'] and transformed['longitude']]. *)
Definition valid (transformed : option db_shop) : bool :=
  match transformed with
  | Some t => Py.truthy_opt_float (latitude t) && Py.truthy_opt_float (longitude t)
  | None => false
  end.

(** One turn of the first loop of [migrate_shops] on the state
    (transformed_shops, shops_failed). *)
Definition prepare_shop (st : list db_shop * nat) (shop : Converter.shop)
  : list db_shop * nat :=
  let '(transformed_shops, shops_failed) := st in
  match transform_shop shop with
  | Some t =>
      if valid (Some t) then (transformed_shops ++ [t], shops_failed)
      else (transformed_shops, shops_failed + 1)
  | None => (transformed_shops, shops_failed + 1)
  end.

(** The shops [migrate_shops] uploads and the number it counts as failed. *)
Definition migrate_shops (shops : list Converter.shop) : list db_shop * nat :=
  foldl prepare_shop ([], 0) shops.

(** The table of [_country_to_code]. *)
Definition codes : gmap string string :=
  list_to_map [
    ("Austria", "AT"); ("Belgium", "BE"); ("Bulgaria", "BG");
    ("Croatia", "HR"); ("Cyprus", "CY"); ("Czech Republic", "CZ");
    ("Denmark", "DK"); ("Estonia", "EE"); ("Finland", "FI");
    ("France", "FR"); ("Germany", "DE"); ("Greece", "GR");
    ("Hungary", "HU"); ("Ireland", "IE"); ("Italy", "IT");
    ("Latvia", "LV"); ("Lithuania", "LT"); ("Luxembourg", "LU");
    ("Malta", "MT"); ("Netherlands", "NL"); ("Poland", "PL");
    ("Portugal", "PT"); ("Romania", "RO"); ("Slovakia", "SK");
    ("Slovenia", "SI"); ("Spain", "ES"); ("Sweden", "SE") ].

Definition _country_to_code (country_name : string) : string :=
  default "XX" (codes !! country_name).

(** The outcome of the second part of [migrate_shops]: the number of shops
    counted as migrated, or the ZeroDivisionError that the computation of
    the number of batches raises for a batch size of zero. *)
Inductive upload : Type :=
| Uploaded (shops_migrated : nat)
| ZeroDivisionError.

(** One turn of the upload loop, for the batch that starts at index [i].
    The database is outside the embedding: [insert batch_num batch] tells
    whether the insert of that batch returned (true) or raised (false). *)
Definition upload_batch (insert : nat → list db_shop → bool) (batch_size : nat)
    (transformed_shops : list db_shop) (shops_migrated i : nat) : nat :=
  let batch := take batch_size (drop i transformed_shops) in
  let batch_num := i `div` batch_size + 1 in
  if insert batch_num batch then shops_migrated + length batch
  else shops_migrated.

(** The upload loop of [migrate_shops] over [range(0, len, batch_size)]. *)
Definition upload_batches (insert : nat → list db_shop → bool) (batch_size : Z)
    (transformed_shops : list db_shop) : upload :=
  if bool_decide (batch_size = 0%Z) then ZeroDivisionError
  else
    match Py.range_from_0 (length transformed_shops) batch_size with
    | Py.Ok starts =>
        Uploaded
          (foldl (upload_batch insert (Z.to_nat batch_size) transformed_shops) 0 starts)
    | Py.Raise _ => ZeroDivisionError
    end.

(** What [migrate_countries_and_cities] leaves behind: the identifiers it
    returns, its two counters, and the inserts it asked the database for. *)
Record lookup_tables : Type := LookupTables {
  country_map : gmap string Z;
  countries_created : nat;
  cities_created : nat;
  country_inserts : list (string * string);
  city_inserts : list (string * Z)
}.

(** One turn of the loop over the sorted country names.  The database is
    outside the embedding: [insert_country k name code] is the identifier
    that the insert number [k] returned, [None] when it raised. *)
Definition create_country (insert_country : nat → string → string → option Z)
    (t : lookup_tables) (country_name : string) : lookup_tables :=
  let code := _country_to_code country_name in
  let asked := country_inserts t ++ [(country_name, code)] in
  match insert_country (length (country_inserts t)) country_name code with
  | Some country_id =>
      {| country_map := <[country_name := country_id]> (country_map t);
         countries_created := countries_created t + 1;
         cities_created := cities_created t;
         country_inserts := asked;
         city_inserts := city_inserts t |}
  | None =>
      {| country_map := country_map t;
         countries_created := countries_created t;
         cities_created := cities_created t;
         country_inserts := asked;
         city_inserts := city_inserts t |}
  end.

(** One turn of the loop over the cities of a country.
    [insert_city k name country_id] tells whether the insert number [k]
    returned. *)
Definition create_city (insert_city : nat → string → Z → bool) (country_id : Z)
    (t : lookup_tables) (city_name : string) : lookup_tables :=
  if bool_decide (city_name = "Unknown City") then t
  else
    {| country_map := country_map t;
       countries_created := countries_created t;
       cities_created :=
         if insert_city (length (city_inserts t)) city_name country_id
         then cities_created t + 1 else cities_created t;
       country_inserts := country_inserts t;
       city_inserts := city_inserts t ++ [(city_name, country_id)] |}.

(** One turn of the loop over the items of the index. *)
Definition create_cities (insert_city : nat → string → Z → bool)
    (t : lookup_tables) (item : string * list string) : lookup_tables :=
  let '(country_name, cities) := item in
  match country_map t !! country_name with
  | Some country_id =>
      if bool_decide (country_id = 0%Z) then t
      else foldl (create_city insert_city country_id) t cities
  | None => t
  end.

(** [migrate_countries_and_cities] on the items of the index, in the order
    of the dictionary. *)
Definition migrate_countries_and_cities
    (insert_country : nat → string → string → option Z)
    (insert_city : nat → string → Z → bool)
    (countries_data : list (string * list string)) : lookup_tables :=
  let t := foldl (create_country insert_country)
             {| country_map := ∅; countries_created := 0; cities_created := 0;
                country_inserts := []; city_inserts := [] |}
             (Py.sorted_str countries_data.*1) in
  foldl (create_cities insert_city) t countries_data.

End Migrator.

(** * The vocabulary of the statements *)

Section Statements.
Import Converter.
Implicit Types (row : Row) (s : shop) (k : string).
Implicit Types (m : gmap string (gset string)) (country town : string).

(** [sub in s] holds exactly when [s] is some text, then [sub], then some
    text. *)
Definition has_substring (sub s : string) : Prop :=
  ∃ pre post, s = pre +:+ sub +:+ post.

(** A field that is there, not empty, and that [float] refuses. *)
Definition malformed row k : Prop :=
  ∃ v, row !! k = Some v ∧ v ≠ "" ∧ Py.float_of_str v = Py.Raise Py.ValueError.

(** The stripped value of a field, the empty string when it is missing. *)
Definition field row (k : string) : string := Py.strip (Py.get_default (row !! k)).

(** The test the conversion loop applies to a normalized record. *)
Definition accepts (skip_unnamed : bool) s : bool :=
  negb (skip_unnamed
        && (bool_decide (name s = "Unnamed Shop") || negb (Py.truthy_str (name s))))
  && Py.truthy_opt_float (latitude s) && Py.truthy_opt_float (longitude s).

(** The record a row adds to the accepted list, if any. *)
Definition accepted_of (skip_unnamed : bool) row : option shop :=
  match parse_csv_row row with
  | Py.Ok s => if accepts skip_unnamed s then Some s else None
  | Py.Raise _ => None
  end.

(** What a row adds to the skip counter. *)
Definition skipped_of (skip_unnamed : bool) row : nat :=
  match accepted_of skip_unnamed row with Some _ => 0 | None => 1 end.

(** The record [s] gives the index the city [town] under [country]: its
    composed string has the separator, [town] is its first piece and
    [country] its last piece, both stripped and not empty. *)
Definition contributes s country town : Prop :=
  Py.contains ", " (city s) = true
  ∧ town = Py.strip (default "" (head (Py.split ", " (city s))))
  ∧ country = Py.strip (default "" (last (Py.split ", " (city s))))
  ∧ town ≠ "" ∧ country ≠ "".

(** What a record adds to the index, if anything. *)
Definition contribution s : option (string * string) :=
  if Py.contains ", " (city s) then
    let parts := Py.split ", " (city s) in
    let town := Py.strip (default "" (head parts)) in
    let country := Py.strip (default "" (last parts)) in
    if Py.truthy_str town && Py.truthy_str country then Some (country, town)
    else None
  else None.

(** [town] is in the set of [country]. *)
Definition in_index m country town : Prop :=
  ∃ cs, m !! country = Some cs ∧ town ∈ cs.

(** No country has an empty set. *)
Definition no_empty_set m : Prop := ∀ country cs, m !! country = Some cs → cs ≠ ∅.

(** *** Sample rows and records *)

(** A row of the extractor's CSV with coordinates and an address. *)
Definition berlin_row : Row :=
  {[ "name" := "Moto Berlin"; "latitude" := "52.52"; "longitude" := "13.405";
     "address_city" := "Berlin"; "address_country" := "de" ]}.

(** The record it is normalized to. *)
Definition berlin_shop : shop :=
  {| name := "Moto Berlin";
     address := "Address not available";
     city := "Berlin, Germany";
     phone := "N/A";
     website := "N/A";
     rating := "N/A";
     reviews_count := "0";
     hours := "Hours not available";
     latitude := Some (S754_finite false 7391532888421827 (-47));
     longitude := Some (S754_finite false 7546344125612687 (-49));
     business_type := "Motorcycle Shop" |}.

(** A record with a latitude and no longitude, as a row with an empty
    longitude field gives it. *)
Definition latitude_only_row : Row :=
  {[ "name" := "Moto Berlin"; "latitude" := "52.52"; "longitude" := "" ]}.

(** The record it is normalized to. *)
Definition latitude_only_shop : shop :=
  {| name := "Moto Berlin";
     address := "Address not available";
     city := "Unknown City, Unknown Country";
     phone := "N/A";
     website := "N/A";
     rating := "N/A";
     reviews_count := "0";
     hours := "Hours not available";
     latitude := Some (S754_finite false 7391532888421827 (-47));
     longitude := None;
     business_type := "Motorcycle Shop" |}.

(** A record at latitude zero. *)
Definition equator_shop : shop :=
  {| name := "Moto Quito";
     address := "Address not available";
     city := "Unknown City, Unknown Country";
     phone := "N/A";
     website := "N/A";
     rating := "N/A";
     reviews_count := "0";
     hours := "Hours not available";
     latitude := Some (S754_zero false);
     longitude := Some (S754_finite false 7391532888421827 (-47));
     business_type := "Motorcycle Shop" |}.

(** One record whose country is known and whose city is not. *)
Definition france_row : Row :=
  {[ "name" := "Moto France"; "latitude" := "52.52"; "longitude" := "13.405";
     "address_country" := "FR" ]}.

(** The record it is normalized to. *)
Definition france_shop : shop :=
  {| name := "Moto France";
     address := "Address not available";
     city := "Unknown City, France";
     phone := "N/A";
     website := "N/A";
     rating := "N/A";
     reviews_count := "0";
     hours := "Hours not available";
     latitude := Some (S754_finite false 7391532888421827 (-47));
     longitude := Some (S754_finite false 7546344125612687 (-49));
     business_type := "Motorcycle Shop" |}.

(** Two records of two countries, for the order of the input. *)
Definition berlin_france : list shop := [berlin_shop; france_shop].
Definition france_berlin : list shop := [france_shop; berlin_shop].

(** A text that is not empty, has no white space around it and does not
    contain the separator of the composed city. *)
Definition is_clean (x : string) : Prop :=
  x ≠ "" ∧ Py.strip x = x ∧ Py.contains ", " x = false.

(** The tags of a motorcycle dealer with a full address. *)
Definition dealer_tags : gmap string string :=
  {[ "shop" := "motorcycle"; "name" := "Moto Berlin";
     "addr:street" := "Main St"; "addr:housenumber" := "12";
     "addr:city" := "Berlin"; "addr:country" := "DE";
     "mobile" := "+49 30 1234" ]}.

(** The row the extractor writes for them. *)
Definition dealer_row : Row :=
  Extractor.csv_row dealer_tags "Germany" "1" "node" "52.52" "13.405".

(** The record it is normalized to. *)
Definition dealer_shop : shop :=
  {| name := "Moto Berlin";
     address := "Main St 12";
     city := "Berlin, Germany";
     phone := "+49 30 1234";
     website := "N/A";
     rating := "N/A";
     reviews_count := "0";
     hours := "Hours not available";
     latitude := Some (S754_finite false 7391532888421827 (-47));
     longitude := Some (S754_finite false 7546344125612687 (-49));
     business_type := "Motorcycle Dealership" |}.

(** The row of the shops table a record gives, if it passes the validity
    check of the migrator. *)
Definition uploaded_of (s : shop) : option Migrator.db_shop :=
  match Migrator.transform_shop s with
  | Some t => if Migrator.valid (Some t) then Some t else None
  | None => None
  end.

(** What a record adds to the counter of failed shops. *)
Definition failed_of (s : shop) : nat :=
  match uploaded_of s with Some _ => 0 | None => 1 end.

(** The batches of the upload loop: the slices of [batch_size] rows that
    start at the multiples of [batch_size]. *)
Definition batches {A} (batch_size : nat) (l : list A) : list (list A) :=
  (λ j : nat, take batch_size (drop (j * batch_size) l))
    <$> seq 0 ((length l + batch_size - 1) `div` batch_size).

(** The inserts of cities that an item of the index leads to, given the
    identifiers of the countries: one for each city of the item other than
    the sentinel, if the country has an identifier that is not zero. *)
Definition asked_cities (cm : gmap string Z) (item : string * list string)
  : list (string * Z) :=
  match cm !! item.1 with
  | Some country_id =>
      if bool_decide (country_id = 0%Z) then []
      else (λ c, (c, country_id)) <$> filter (λ c, c ≠ "Unknown City") item.2
  | None => []
  end.

(** A database that refuses the country France and numbers the others from
    seven on, and its answers for cities; an index of two countries. *)
Definition no_france (k : nat) (country_name code : string) : option Z :=
  if bool_decide (country_name = "France") then None else Some (Z.of_nat k + 7)%Z.

Definition any_city (k : nat) (city_name : string) (country_id : Z) : bool := true.

Definition two_countries : list (string * list string) :=
  [("Germany", ["Berlin"; "Unknown City"]); ("France", ["Paris"])].

(** The field [k] of a row of the reader is None: the line was too short
    to have it. *)
Definition is_None (r : Reader.Row) (k : string) : Prop := r !! k = Some None.

(** The fields of a row of the reader that are texts. *)
Definition text_fields (r : Reader.Row) : Row := omap id r.

(** One of the three fields that the normalizer strips is None. *)
Definition stripped_None (r : Reader.Row) : Prop :=
  is_None r "address_city" ∨ is_None r "address_country"
  ∨ is_None r "source_country".

(** [determine_business_type] comes to put a None in lower case: no field
    decides the label before, and shop_type is None, or shop_type has no
    "repair" and amenity is None. *)
Definition lowered_None (r : Reader.Row) : Prop :=
  let shop_type := Py.get_default (text_fields r !! "shop_type") in
  let amenity := Py.get_default (text_fields r !! "amenity") in
  let craft := Py.get_default (text_fields r !! "craft") in
  shop_type ≠ "motorcycle_repair" ∧ amenity ≠ "motorcycle_repair"
  ∧ craft ≠ "motorcycle_repair" ∧ shop_type ≠ "motorcycle"
  ∧ (is_None r "shop_type"
     ∨ (¬ has_substring "repair" (Py.lower shop_type) ∧ is_None r "amenity")).

(** The row of a line that stops after the name, the fifth of the
    twenty-three columns: the fields after it are None. *)
Definition short_row : Reader.Row :=
  list_to_map [
    ("osm_id", Some "240109189"); ("osm_type", Some "node");
    ("latitude", Some "52.52"); ("longitude", Some "13.405");
    ("name", Some "Moto Berlin");
    ("shop_type", None); ("amenity", None); ("craft", None); ("brand", None);
    ("operator", None); ("address_street", None);
    ("address_housenumber", None); ("address_city", None);
    ("address_postcode", None); ("address_country", None); ("phone", None);
    ("mobile", None); ("email", None); ("website", None);
    ("opening_hours", None); ("service_motorcycle", None);
    ("service_repair", None); ("source_country", None) ].

End Statements.

(** * Properties *)

(** ** The embedding on concrete inputs *)

Example float_of_str_decimal :
  Py.float_of_str "52.52" = Py.Ok (S754_finite false 7391532888421827 (-47)).
Proof. vm_compute. reflexivity. Qed.

Example float_of_str_spaces_and_underscores :
  Py.float_of_str " 1_000.5 " = Py.Ok (S754_finite false 8800491068719104 (-43)).
Proof. vm_compute. reflexivity. Qed.

Example float_of_str_underflow :
  Py.float_of_str "1e-400" = Py.Ok (S754_zero false).
Proof. vm_compute. reflexivity. Qed.

Example float_of_str_overflow :
  Py.float_of_str "-1e400" = Py.Ok (S754_infinity true).
Proof. vm_compute. reflexivity. Qed.

Example float_of_str_refused :
  Py.float_of_str <$> ["not-a-number"; ""; " "; "1e"; "."; "1_"; "0x10"]
  = replicate 7 (Py.Raise Py.ValueError).
Proof. vm_compute. reflexivity. Qed.

Example float_of_str_not_a_real_number :
  Py.float_of_str <$> ["nan"; "inf"; "-Infinity"]
  = [Py.Ok S754_nan; Py.Ok (S754_infinity false); Py.Ok (S754_infinity true)].
Proof. vm_compute. reflexivity. Qed.

Example parse_short_row :
  Reader.parse_csv_row short_row = Py.Raise Py.AttributeError
  ∧ Reader.convert_rows false [short_row] = ([], 1).
Proof. vm_compute. done. Qed.

Example split_pieces :
  Py.split ", " "A, B, C" = ["A"; "B"; "C"]
  ∧ Py.split ", " ", " = [""; ""]
  ∧ Py.split ", " "a,, b" = ["a,"; "b"]
  ∧ Py.split ", " "abc" = ["abc"].
Proof. vm_compute. done. Qed.

Example strip_both_sides : Py.strip "  Main St 12 " = "Main St 12" ∧ Py.strip "   " = "".
Proof. vm_compute. done. Qed.

Example get_country_name_table :
  Converter.get_country_name "de" = "Germany"
  ∧ Converter.get_country_name "FR" = "France"
  ∧ Converter.get_country_name "Norway" = "Norway".
Proof. vm_compute. done. Qed.

Example build_countries_dict_sorted :
  Converter.build_countries_dict
    ((λ c, Converter.Shop "n" "a" c "p" "w" "N/A" "0" "h" None None "b")
       <$> ["Munich, Germany"; "Vienna, Austria"; "Berlin, Germany";
            "Munich, Germany"; "no separator"])
  = [("Austria", ["Vienna"]); ("Germany", ["Berlin"; "Munich"])].
Proof. vm_compute. reflexivity. Qed.

(** ** Strings *)

Lemma app_cons (c : ascii) (s t : string) : String c s +:+ t = String c (s +:+ t).
Proof. reflexivity. Qed.

Lemma app_empty_l (s : string) : "" +:+ s = s.
Proof. reflexivity. Qed.

Lemma startswith_spec (p s : string) :
  Py.startswith p s = true ↔ ∃ post, s = p +:+ post.
Proof.
  revert s. induction p as [|a p IH]; intros s; simpl.
  - split; [intros _; by exists s | done].
  - destruct s as [|b s].
    + split; [done | intros [post Hp]; by rewrite app_cons in Hp].
    + rewrite andb_true_iff, bool_decide_eq_true, IH. split.
      * intros [-> [post ->]]. by exists post.
      * intros [post Hp]. rewrite app_cons in Hp. simplify_eq. eauto.
Qed.

Lemma contains_spec (sub s : string) :
  Py.contains sub s = true ↔ has_substring sub s.
Proof.
  split.
  - induction s as [|c s IH]; simpl; rewrite orb_true_iff.
    + intros [H|?]; [|done]. apply startswith_spec in H as [post ->].
      by exists "", post.
    + intros [H|H].
      * apply startswith_spec in H as [post ->]. by exists "", post.
      * destruct (IH H) as (pre & post & ->). by exists (String c pre), post.
  - intros (pre & post & ->). induction pre as [|c pre IH].
    + rewrite app_empty_l. destruct (sub +:+ post) eqn:E; simpl;
        apply orb_true_iff; left; apply startswith_spec; eauto.
    + rewrite app_cons. simpl. rewrite IH. apply orb_true_r.
Qed.

Lemma truthy_str_true (s : string) : Py.truthy_str s = true ↔ s ≠ "".
Proof. unfold Py.truthy_str. rewrite negb_true_iff, bool_decide_eq_false. done. Qed.

Lemma truthy_str_false (s : string) : Py.truthy_str s = false ↔ s = "".
Proof. unfold Py.truthy_str. rewrite negb_false_iff, bool_decide_eq_true. done. Qed.

(** ** The classifier *)

(** C2. The classifier accepts a tag mapping exactly when shop is
    motorcycle_repair or motorcycle, or amenity is motorcycle_repair, or craft
    is motorcycle_repair, or service:vehicle:motorcycle is yes together with
    one of service:vehicle:repair = yes, repair = yes, or a craft value that
    contains "repair".  Hence shop = motorcycle_repair gives true whatever the
    other tags are, and a mapping without the shop, amenity, craft and
    service:vehicle:motorcycle tags gives false. *)
Theorem is_motorcycle_repair_shop_iff (tags : gmap string string) :
  (Extractor._is_motorcycle_repair_shop tags = true ↔
     tags !! "shop" = Some "motorcycle_repair"
     ∨ tags !! "shop" = Some "motorcycle"
     ∨ tags !! "amenity" = Some "motorcycle_repair"
     ∨ tags !! "craft" = Some "motorcycle_repair"
     ∨ (tags !! "service:vehicle:motorcycle" = Some "yes"
        ∧ (tags !! "service:vehicle:repair" = Some "yes"
           ∨ tags !! "repair" = Some "yes"
           ∨ ∃ craft, tags !! "craft" = Some craft ∧ has_substring "repair" craft)))
  ∧ (tags !! "shop" = Some "motorcycle_repair" →
     Extractor._is_motorcycle_repair_shop tags = true)
  ∧ (tags !! "shop" = None → tags !! "amenity" = None → tags !! "craft" = None →
     tags !! "service:vehicle:motorcycle" = None →
     Extractor._is_motorcycle_repair_shop tags = false).
Proof.
  assert (Hcraft : Py.contains "repair" (Py.get_default (tags !! "craft")) = true
                   ↔ ∃ craft, tags !! "craft" = Some craft ∧ has_substring "repair" craft).
  { rewrite contains_spec. destruct (tags !! "craft") as [c|]; simpl.
    - split; [eauto | by intros (? & [= <-] & ?)].
    - split; [|by intros (? & [=] & _)].
      intros (pre & post & H). destruct pre; discriminate. }
  assert (Hshop : tags !! "shop" ∈ [Some "motorcycle_repair"; Some "motorcycle"]
                  ↔ tags !! "shop" = Some "motorcycle_repair"
                    ∨ tags !! "shop" = Some "motorcycle").
  { rewrite !elem_of_cons, elem_of_nil. tauto. }
  assert (Hor : Extractor._is_motorcycle_repair_shop tags =
                bool_decide (tags !! "shop" ∈ [Some "motorcycle_repair"; Some "motorcycle"])
                || bool_decide (tags !! "amenity" = Some "motorcycle_repair")
                || bool_decide (tags !! "service:vehicle:motorcycle" = Some "yes")
                   && (bool_decide (tags !! "service:vehicle:repair" = Some "yes")
                       || bool_decide (tags !! "repair" = Some "yes")
                       || Py.contains "repair" (Py.get_default (tags !! "craft")))
                || bool_decide (tags !! "craft" = Some "motorcycle_repair")).
  { unfold Extractor._is_motorcycle_repair_shop.
    destruct (bool_decide (tags !! "shop" ∈ _)); [done|].
    destruct (bool_decide (tags !! "amenity" = _)); [done|].
    destruct (_ && _); [done|].
    by destruct (bool_decide (tags !! "craft" = _)). }
  assert (Hiff : Extractor._is_motorcycle_repair_shop tags = true ↔
     tags !! "shop" = Some "motorcycle_repair"
     ∨ tags !! "shop" = Some "motorcycle"
     ∨ tags !! "amenity" = Some "motorcycle_repair"
     ∨ tags !! "craft" = Some "motorcycle_repair"
     ∨ (tags !! "service:vehicle:motorcycle" = Some "yes"
        ∧ (tags !! "service:vehicle:repair" = Some "yes"
           ∨ tags !! "repair" = Some "yes"
           ∨ ∃ craft, tags !! "craft" = Some craft ∧ has_substring "repair" craft))).
  { rewrite Hor, !orb_true_iff, andb_true_iff, !orb_true_iff,
      !bool_decide_eq_true, Hshop, Hcraft. tauto. }
  split; [exact Hiff | split].
  - intros H. apply Hiff. by left.
  - intros Hs Ha Hc Hm. apply not_true_is_false. rewrite Hiff, Hs, Ha, Hc, Hm.
    intros [?|[?|[?|[?|[? _]]]]]; discriminate.
Qed.

(** ** The normalizer *)

Section Normalizer.
Import Converter.
Implicit Types (row : Row) (s : shop) (k : string).

Lemma float_of_str_raises (v : string) (e : Py.exn) :
  Py.float_of_str v = Py.Raise e → e = Py.ValueError.
Proof.
  unfold Py.float_of_str.
  destruct (Py.remove_underscores _ _); [|by intros [= <-]].
  destruct (Py.take_sign _) as [neg u].
  destruct (Py.parse_decimal neg u); [done|].
  destruct (Py.parse_inf_or_nan neg u); [done|]. by intros [= <-].
Qed.

Lemma parse_coordinate_raises row k (e : Py.exn) :
  parse_coordinate row k = Py.Raise e → e = Py.ValueError.
Proof.
  unfold parse_coordinate. destruct (row !! k) as [v|]; [|done].
  destruct (Py.truthy_str v); [|done].
  destruct (Py.float_of_str v) as [x|e'] eqn:Hf; [done|].
  cbn. intros [= <-]. by eapply float_of_str_raises.
Qed.

Lemma parse_csv_row_raises row (e : Py.exn) :
  parse_csv_row row = Py.Raise e → e = Py.ValueError.
Proof.
  unfold parse_csv_row.
  destruct (parse_coordinate row "latitude") as [lat|e1] eqn:H1; cbn.
  - destruct (parse_coordinate row "longitude") as [lon|e2] eqn:H2; cbn; [done|].
    intros [= <-]. by eapply parse_coordinate_raises.
  - intros [= <-]. by eapply parse_coordinate_raises.
Qed.

Lemma parse_coordinate_raise row k :
  parse_coordinate row k = Py.Raise Py.ValueError ↔ malformed row k.
Proof.
  unfold parse_coordinate, malformed. destruct (row !! k) as [v|]; simpl.
  - destruct (Py.truthy_str v) eqn:Hv.
    + apply truthy_str_true in Hv.
      destruct (Py.float_of_str v) as [x|e] eqn:Hf; simpl.
      * split; [done | intros (? & [= <-] & _ & ?); congruence].
      * pose proof (float_of_str_raises _ _ Hf) as ->. split; [eauto | done].
    + apply truthy_str_false in Hv. split; [done | by intros (? & [= <-] & ? & _)].
  - split; [done | by intros (? & [=] & _)].
Qed.

Lemma parse_coordinate_ok row k o :
  parse_coordinate row k = Py.Ok o →
  (is_Some o ↔ Py.truthy_get (row !! k) = true)
  ∧ (∀ x, o = Some x → ∃ v, row !! k = Some v ∧ Py.float_of_str v = Py.Ok x).
Proof.
  unfold parse_coordinate. destruct (row !! k) as [v|]; simpl.
  - destruct (Py.truthy_str v) eqn:Hv.
    + destruct (Py.float_of_str v) as [x|e] eqn:Hf; simpl; [|done].
      intros [= <-]. split; [by split; eauto | intros ? [= <-]; eauto].
    + intros [= <-]. split; [split; [by intros [] | done] | done].
  - intros [= <-]. split; [split; [by intros [] | done] | done].
Qed.

Lemma parse_csv_row_coordinates row :
  match parse_csv_row row with
  | Py.Ok s =>
      parse_coordinate row "latitude" = Py.Ok (latitude s)
      ∧ parse_coordinate row "longitude" = Py.Ok (longitude s)
  | Py.Raise _ =>
      parse_coordinate row "latitude" = Py.Raise Py.ValueError
      ∨ parse_coordinate row "longitude" = Py.Raise Py.ValueError
  end.
Proof.
  unfold parse_csv_row.
  destruct (parse_coordinate row "latitude") as [lat|e1] eqn:H1; simpl.
  - destruct (parse_coordinate row "longitude") as [lon|e2] eqn:H2; simpl; [done|].
    right. by rewrite (parse_coordinate_raises _ _ _ H2).
  - left. by rewrite (parse_coordinate_raises _ _ _ H1).
Qed.

Lemma parse_csv_row_name row s :
  parse_csv_row row = Py.Ok s →
  name s = Py.strip (Py.get_or (row !! "name")
                       (Py.get_or (row !! "operator")
                          (Py.get_or (row !! "brand") "Unnamed Shop"))).
Proof.
  unfold parse_csv_row.
  destruct (parse_coordinate row "latitude"); simpl; [|done].
  destruct (parse_coordinate row "longitude"); simpl; [|done].
  by intros [= <-].
Qed.

Lemma convert_row_spec skip_unnamed shops n row :
  convert_row skip_unnamed (shops, n) row =
  (shops ++ option_list (accepted_of skip_unnamed row),
   n + skipped_of skip_unnamed row).
Proof.
  unfold convert_row, skipped_of, accepted_of, accepts.
  destruct (parse_csv_row row) as [s|e]; simpl.
  - destruct (skip_unnamed && _); simpl.
    + by rewrite (right_id_L [] (++)).
    + destruct (Py.truthy_opt_float (latitude s)),
        (Py.truthy_opt_float (longitude s)); simpl;
        by rewrite ?(right_id_L [] (++)), ?Nat.add_0_r.
  - by rewrite (right_id_L [] (++)).
Qed.

Lemma foldl_convert_row skip_unnamed rows shops n :
  foldl (convert_row skip_unnamed) (shops, n) rows =
  (shops ++ omap (accepted_of skip_unnamed) rows,
   n + sum_list (skipped_of skip_unnamed <$> rows)).
Proof.
  revert shops n. induction rows as [|row rows IH]; intros shops n; cbn [foldl].
  - simpl. by rewrite (right_id_L [] (++)), Nat.add_0_r.
  - rewrite convert_row_spec, IH, <- (assoc_L (++)). simpl.
    f_equal; [|symmetry; apply Nat.add_assoc]. f_equal. by destruct (accepted_of skip_unnamed row).
Qed.

Lemma convert_rows_spec skip_unnamed rows :
  convert_rows skip_unnamed rows =
  (omap (accepted_of skip_unnamed) rows,
   sum_list (skipped_of skip_unnamed <$> rows)).
Proof. unfold convert_rows. by rewrite foldl_convert_row. Qed.

Lemma accepted_elem_of skip_unnamed rows s :
  s ∈ (convert_rows skip_unnamed rows).1 →
  accepts skip_unnamed s = true
  ∧ ∃ row, row ∈ rows ∧ parse_csv_row row = Py.Ok s.
Proof.
  rewrite convert_rows_spec. simpl. rewrite list_elem_of_omap.
  intros (row & Hin & Hacc). unfold accepted_of in Hacc.
  destruct (parse_csv_row row) as [s'|] eqn:Hp; [|done].
  destruct (accepts skip_unnamed s') eqn:Ha; [|done].
  simplify_eq. eauto.
Qed.

Lemma convert_rows_count skip_unnamed rows :
  length (convert_rows skip_unnamed rows).1 + (convert_rows skip_unnamed rows).2
  = length rows.
Proof.
  rewrite convert_rows_spec. simpl.
  induction rows as [|row rows IH]; [done|].
  cbn [omap list_omap fmap list_fmap sum_list sum_list_with].
  unfold skipped_of at 1. destruct (accepted_of skip_unnamed row); simpl in *; lia.
Qed.

End Normalizer.

(** ** The normalizer on the rows of short lines *)

Section ReaderRows.
Import Converter.
Implicit Types (r : Reader.Row) (k : string).

Lemma text_fields_lookup r k : text_fields r !! k = r !! k ≫= id.
Proof. unfold text_fields. by rewrite lookup_omap. Qed.

Lemma reader_get r k : Reader.get r k = text_fields r !! k.
Proof.
  unfold Reader.get. rewrite text_fields_lookup.
  by destruct (r !! k) as [[v|]|].
Qed.

Lemma reader_get_default r k :
  Py.get_default (text_fields r !! k) = default "" (Reader.get_default r k)
  ∧ (is_None r k ↔ Reader.get_default r k = None).
Proof.
  unfold Reader.get_default, Py.get_default, is_None.
  rewrite text_fields_lookup.
  destruct (r !! k) as [[v|]|]; cbn; (split; [done|]); split; congruence.
Qed.

Lemma reader_strip r k :
  ¬ is_None r k →
  Reader.strip (Reader.get_default r k)
  = Py.Ok (Py.strip (Py.get_default (text_fields r !! k))).
Proof.
  destruct (reader_get_default r k) as [-> Hn]. intros H.
  destruct (Reader.get_default r k); [done|]. destruct H. by apply Hn.
Qed.

Lemma reader_strip_None r k :
  is_None r k →
  Reader.strip (Reader.get_default r k) = Py.Raise Py.AttributeError.
Proof.
  destruct (reader_get_default r k) as [_ Hn]. intros H%Hn. by rewrite H.
Qed.

Lemma reader_parse_coordinate r k :
  Reader.parse_coordinate r k = parse_coordinate (text_fields r) k.
Proof. unfold Reader.parse_coordinate, parse_coordinate. by rewrite reader_get. Qed.

Lemma bool_decide_Some (a b : string) :
  bool_decide (Some a = Some b) = bool_decide (a = b).
Proof. apply bool_decide_ext. split; congruence. Qed.

Lemma reader_determine_business_type r :
  match Reader.determine_business_type r with
  | Py.Ok b => b = determine_business_type (text_fields r) ∧ ¬ lowered_None r
  | Py.Raise e => e = Py.AttributeError ∧ lowered_None r
  end.
Proof.
  unfold Reader.determine_business_type, determine_business_type, lowered_None.
  cbv zeta.
  destruct (reader_get_default r "shop_type") as [-> Hs].
  destruct (reader_get_default r "amenity") as [-> Ha].
  destruct (reader_get_default r "craft") as [-> _].
  revert Hs Ha.
  generalize (is_None r "shop_type") (is_None r "amenity").
  generalize (Reader.get_default r "shop_type") (Reader.get_default r "amenity")
    (Reader.get_default r "craft").
  intros shop_type amenity craft Ps Pa Hs Ha.
  destruct shop_type as [shop_type|], amenity as [amenity|], craft as [craft|];
    cbn [default Reader.lower mbind mret Py.result_bind Py.result_ret Py.bind];
    rewrite ?bool_decide_Some; cbn [id];
    change (Py.contains "repair" (Py.lower "")) with false;
    repeat (case_bool_decide; cbn [orb]; simplify_eq);
    repeat match goal with
      | |- context [Py.contains "repair" ?x] =>
          let H := fresh "Hc" in
          destruct (Py.contains "repair" x) eqn:H; cbn [orb];
          [apply contains_spec in H
          |apply not_true_iff_false in H; rewrite contains_spec in H]
      end;
    cbn [mret Py.result_ret];
    (split; [done|]);
    first
      [ intros (G1 & G2 & G3 & G4 & [Gp | [Gn Gp]]);
        first [ done | contradiction | by apply Hs in Gp | by apply Ha in Gp ]
      | split_and!; [done..|];
        first [ left; by apply Hs | right; split; [done | by apply Ha] ] ].
Qed.

Lemma reader_strip_raises (v : option string) (e : Py.exn) :
  Reader.strip v = Py.Raise e → e = Py.AttributeError.
Proof. destruct v; [done|]. by intros [= <-]. Qed.

Lemma reader_parse_csv_row_stripped r :
  stripped_None r → Reader.parse_csv_row r = Py.Raise Py.AttributeError.
Proof.
  intros Hs. unfold Reader.parse_csv_row. cbv zeta.
  destruct (Reader.strip (Reader.get_default r "address_city")) as [c|e] eqn:H1;
    cbn [mbind Py.result_bind Py.bind].
  2: { by rewrite (reader_strip_raises _ _ H1). }
  destruct (Reader.strip (Reader.get_default r "address_country")) as [c'|e] eqn:H2;
    cbn [mbind Py.result_bind Py.bind].
  2: { by rewrite (reader_strip_raises _ _ H2). }
  destruct (Reader.strip (Reader.get_default r "source_country")) as [c''|e] eqn:H3;
    cbn [mbind Py.result_bind Py.bind].
  2: { by rewrite (reader_strip_raises _ _ H3). }
  destruct Hs as [Hs|[Hs|Hs]]; apply reader_strip_None in Hs; congruence.
Qed.

Lemma reader_parse_csv_row r :
  ¬ stripped_None r →
  Reader.parse_csv_row r
  = (s ← parse_csv_row (text_fields r);
     _ ← Reader.determine_business_type r;
     mret s).
Proof.
  intros Hn.
  assert (H1 : ¬ is_None r "address_city") by (intros ?; apply Hn; by left).
  assert (H2 : ¬ is_None r "address_country")
    by (intros ?; apply Hn; right; by left).
  assert (H3 : ¬ is_None r "source_country")
    by (intros ?; apply Hn; right; by right).
  unfold Reader.parse_csv_row, parse_csv_row. cbv zeta.
  rewrite (reader_strip _ _ H1), (reader_strip _ _ H2), (reader_strip _ _ H3).
  cbn [mbind Py.result_bind Py.bind].
  rewrite !reader_parse_coordinate, !reader_get.
  destruct (parse_coordinate (text_fields r) "latitude") as [lat|];
    cbn [mbind Py.result_bind Py.bind]; [|done].
  destruct (parse_coordinate (text_fields r) "longitude") as [lon|];
    cbn [mbind Py.result_bind Py.bind]; [|done].
  pose proof (reader_determine_business_type r) as Hb.
  destruct (Reader.determine_business_type r) as [b|e];
    cbn [mbind mret Py.result_ret Py.result_bind Py.bind]; [|done].
  destruct Hb as [-> _].
  destruct (reader_get_default r "address_housenumber") as [-> _].
  destruct (Reader.get_default r "address_housenumber") as [housenumber|];
    cbn [default id]; [done|].
  change (Py.truthy_str "") with false. cbv iota.
  by destruct (text_fields r !! "address_street") as [street|];
    [destruct (Py.truthy_str street)|].
Qed.

Lemma stripped_None_dec r : stripped_None r ∨ ¬ stripped_None r.
Proof.
  unfold stripped_None, is_None.
  destruct (decide (r !! "address_city" = Some None)); [by left; left|].
  destruct (decide (r !! "address_country" = Some None)); [by left; right; left|].
  destruct (decide (r !! "source_country" = Some None)); [by left; right; right|].
  right. by intros [|[|]].
Qed.

Lemma text_fields_all r :
  (∀ k, ¬ is_None r k) → ¬ stripped_None r ∧ ¬ lowered_None r.
Proof.
  intros Hall. split.
  - intros [H|[H|H]]; by apply Hall in H.
  - intros (_ & _ & _ & _ & [H|[_ H]]); by apply Hall in H.
Qed.

Lemma text_fields_fmap (row : Row) : text_fields (Some <$> row) = row.
Proof.
  apply map_eq. intros k. rewrite text_fields_lookup, lookup_fmap.
  by destruct (row !! k).
Qed.

Lemma reader_parse_csv_row_outcome r :
  match Reader.parse_csv_row r with
  | Py.Ok s =>
      ¬ stripped_None r
      ∧ ¬ malformed (text_fields r) "latitude"
      ∧ ¬ malformed (text_fields r) "longitude"
      ∧ ¬ lowered_None r
      ∧ parse_csv_row (text_fields r) = Py.Ok s
  | Py.Raise Py.ValueError =>
      ¬ stripped_None r
      ∧ (malformed (text_fields r) "latitude"
         ∨ malformed (text_fields r) "longitude")
  | Py.Raise Py.AttributeError =>
      stripped_None r
      ∨ (¬ malformed (text_fields r) "latitude"
         ∧ ¬ malformed (text_fields r) "longitude"
         ∧ lowered_None r)
  end.
Proof.
  destruct (stripped_None_dec r) as [Hs|Hs].
  { rewrite reader_parse_csv_row_stripped by done. by left. }
  rewrite reader_parse_csv_row by done.
  pose proof (parse_csv_row_coordinates (text_fields r)) as Hc.
  destruct (parse_csv_row (text_fields r)) as [s|e] eqn:Hp;
    cbn [mbind mret Py.result_ret Py.result_bind Py.bind].
  - destruct Hc as [Hc1 Hc2].
    assert (Hlat : ¬ malformed (text_fields r) "latitude")
      by (intros Hm%parse_coordinate_raise; congruence).
    assert (Hlon : ¬ malformed (text_fields r) "longitude")
      by (intros Hm%parse_coordinate_raise; congruence).
    pose proof (reader_determine_business_type r) as Hb.
    destruct (Reader.determine_business_type r) as [b|e];
      cbn [mbind mret Py.result_ret Py.result_bind Py.bind].
    + destruct Hb as [_ Hb]. done.
    + destruct Hb as [-> Hb]. right. done.
  - pose proof (parse_csv_row_raises _ _ Hp) as ->. split; [done|].
    destruct Hc as [Hc|Hc]; apply parse_coordinate_raise in Hc; [by left|by right].
Qed.

Lemma reader_convert_row skip_unnamed (st : list shop * nat) r :
  Reader.parse_csv_row r = parse_csv_row (text_fields r) →
  Reader.convert_row skip_unnamed st r = convert_row skip_unnamed st (text_fields r).
Proof. intros H. unfold Reader.convert_row, convert_row. by rewrite H. Qed.

Lemma reader_parse_csv_row_text (row : Row) :
  Reader.parse_csv_row (Some <$> row) = parse_csv_row row.
Proof.
  assert (Hall : ∀ k, ¬ is_None (Some <$> row) k).
  { intros k. unfold is_None. rewrite lookup_fmap. by destruct (row !! k). }
  destruct (text_fields_all _ Hall) as [Hs Hl].
  rewrite reader_parse_csv_row by done. rewrite text_fields_fmap.
  pose proof (reader_determine_business_type (Some <$> row)) as Hb.
  destruct (parse_csv_row row) as [s|e];
    cbn [mbind mret Py.result_ret Py.result_bind Py.bind]; [|done].
  destruct (Reader.determine_business_type (Some <$> row)) as [b|e];
    cbn [mbind mret Py.result_ret Py.result_bind Py.bind]; [done|].
  by destruct Hb as [_ Hb].
Qed.

Lemma reader_convert_rows_text skip_unnamed (rows : list Row) :
  Reader.convert_rows skip_unnamed ((λ row : Row, Some <$> row) <$> rows)
  = convert_rows skip_unnamed rows.
Proof.
  unfold Reader.convert_rows, convert_rows. generalize (@nil shop, 0).
  induction rows as [|row rows IH]; intros st; [done|].
  cbn [fmap list_fmap foldl]. rewrite <- IH. f_equal.
  rewrite reader_convert_row; rewrite text_fields_fmap; [done|].
  apply reader_parse_csv_row_text.
Qed.

End ReaderRows.

(** ** Claims on the normalizer and the conversion loop *)

Section Claims.
Import Converter.
Implicit Types (row : Row) (s : shop) (skip_unnamed : bool).

Lemma parse_berlin_row : parse_csv_row berlin_row = Py.Ok berlin_shop.
Proof. vm_compute. reflexivity. Qed.

(** C1, counterexample.  A latitude that is not a number makes the
    normalizer raise: no record with absent coordinates comes out. *)
Lemma parse_csv_row_not_a_number :
  parse_csv_row {[ "name" := "Moto Berlin"; "latitude" := "not-a-number";
                   "longitude" := "13.405" ]}
  = Py.Raise Py.ValueError.
Proof. vm_compute. reflexivity. Qed.

(** C1, amended.  On the rows of the CSV reader, where a field of a short
    line is None, the normalizer raises two exceptions and nothing else
    keeps it from returning.  It raises ValueError exactly when none of the
    three stripped fields is None and the latitude or the longitude is a
    text, not empty, that float refuses.  It raises AttributeError exactly
    when one of the stripped fields is None or, with no such coordinate,
    the business type comes to put a None in lower case.  On every other
    row it returns a record, the one of the text fields of the row, in which
    a coordinate whose field is missing, None or empty is absent.  On a row
    without None it is the normalizer of the rows of texts.  The conversion
    loop catches both exceptions: the row is counted as skipped and nothing
    else changes. *)
Theorem parse_csv_row_raises_iff (r : Reader.Row) :
  let row := text_fields r in
  (Reader.parse_csv_row r = Py.Raise Py.ValueError
   ↔ ¬ stripped_None r
     ∧ (malformed row "latitude" ∨ malformed row "longitude"))
  ∧ (Reader.parse_csv_row r = Py.Raise Py.AttributeError
     ↔ stripped_None r
       ∨ (¬ malformed row "latitude" ∧ ¬ malformed row "longitude"
          ∧ lowered_None r))
  ∧ (¬ stripped_None r → ¬ lowered_None r →
     ¬ malformed row "latitude" → ¬ malformed row "longitude" →
     ∃ s, Reader.parse_csv_row r = Py.Ok s
          ∧ parse_csv_row row = Py.Ok s
          ∧ (Py.truthy_get (row !! "latitude") = false → latitude s = None)
          ∧ (Py.truthy_get (row !! "longitude") = false → longitude s = None))
  ∧ ((∀ k, ¬ is_None r k) →
     Reader.parse_csv_row r = parse_csv_row row
     ∧ (parse_csv_row row = Py.Raise Py.ValueError
        ↔ malformed row "latitude" ∨ malformed row "longitude")
     ∧ ∀ skip_unnamed st,
         Reader.convert_row skip_unnamed st r = convert_row skip_unnamed st row)
  ∧ (∀ e, Reader.parse_csv_row r = Py.Raise e →
     ∀ skip_unnamed shops n,
       Reader.convert_row skip_unnamed (shops, n) r = (shops, n + 1)).
Proof.
  intros row. subst row.
  pose proof (reader_parse_csv_row_outcome r) as Hout.
  split_and!.
  - split.
    + intros H. by rewrite H in Hout.
    + intros [Hs Hm]. destruct (Reader.parse_csv_row r) as [s|[|]]; [|done|].
      * destruct Hout as (_ & ? & ? & _). by destruct Hm.
      * destruct Hout as [?|(? & ? & _)]; [done|]. by destruct Hm.
  - split.
    + intros H. by rewrite H in Hout.
    + intros Hc. destruct (Reader.parse_csv_row r) as [s|[|]]; [| |done].
      * destruct Hout as (? & ? & ? & ? & _).
        by destruct Hc as [?|(_ & _ & ?)].
      * destruct Hout as [? Hm]. destruct Hc as [?|(? & ? & _)]; [done|].
        by destruct Hm.
  - intros Hs Hl Hlat Hlon.
    destruct (Reader.parse_csv_row r) as [s|[|]].
    + destruct Hout as (_ & _ & _ & _ & Hp). exists s. split_and!; [done..| |].
      * pose proof (parse_csv_row_coordinates (text_fields r)) as Hc.
        rewrite Hp in Hc. destruct Hc as [Hc _].
        apply parse_coordinate_ok in Hc as [Hc _]. intros Hf.
        destruct (latitude s); [|done].
        destruct Hc as [Hc _]. rewrite Hc in Hf by eauto. done.
      * pose proof (parse_csv_row_coordinates (text_fields r)) as Hc.
        rewrite Hp in Hc. destruct Hc as [_ Hc].
        apply parse_coordinate_ok in Hc as [Hc _]. intros Hf.
        destruct (longitude s); [|done].
        destruct Hc as [Hc _]. rewrite Hc in Hf by eauto. done.
    + destruct Hout as [_ [?|?]]; done.
    + destruct Hout as [?|(_ & _ & ?)]; done.
  - intros Hall. destruct (text_fields_all r Hall) as [Hs Hl].
    assert (Heq : Reader.parse_csv_row r = parse_csv_row (text_fields r)).
    { rewrite reader_parse_csv_row by done.
      pose proof (reader_determine_business_type r) as Hb.
      destruct (parse_csv_row (text_fields r)) as [s|e];
        cbn [mbind mret Py.result_ret Py.result_bind Py.bind]; [|done].
      destruct (Reader.determine_business_type r) as [b|e];
        cbn [mbind mret Py.result_ret Py.result_bind Py.bind]; [done|].
      by destruct Hb as [_ Hb]. }
    split_and!; [done| |].
    + rewrite <- !parse_coordinate_raise.
      pose proof (parse_csv_row_coordinates (text_fields r)) as Hc.
      destruct (parse_csv_row (text_fields r)) as [s|e] eqn:Hp.
      * destruct Hc as [-> ->]. split; [done | by intros [|]].
      * by rewrite (parse_csv_row_raises _ _ Hp).
    + intros skip_unnamed st. by apply reader_convert_row.
  - intros e He skip_unnamed shops n. unfold Reader.convert_row. by rewrite He.
Qed.

(** C5, counterexample.  A name of white space only is taken (it is not
    empty) and stripped: the normalized name is the empty string. *)
Lemma parse_csv_row_blank_name :
  match parse_csv_row {[ "name" := " "; "operator" := "Moto Berlin";
                         "latitude" := "52.52"; "longitude" := "13.405" ]} with
  | Py.Ok s => name s = ""
  | Py.Raise _ => False
  end.
Proof. vm_compute. reflexivity. Qed.

(** C5, amended.  The normalized name is the first of the name, operator
    and brand fields that is not empty, stripped of surrounding white
    space, and the sentinel "Unnamed Shop" when all three are missing or
    empty; it is empty when the chosen field is white space only.  With the
    unnamed filter on, a record named by the sentinel or by the empty
    string is skipped; with the filter off, a record is accepted as soon as
    both coordinates are present and not zero. *)
Theorem name_fallback row s :
  parse_csv_row row = Py.Ok s →
  (∀ v, row !! "name" = Some v → v ≠ "" → name s = Py.strip v)
  ∧ (Py.truthy_get (row !! "name") = false →
     ∀ v, row !! "operator" = Some v → v ≠ "" → name s = Py.strip v)
  ∧ (Py.truthy_get (row !! "name") = false →
     Py.truthy_get (row !! "operator") = false →
     ∀ v, row !! "brand" = Some v → v ≠ "" → name s = Py.strip v)
  ∧ (Py.truthy_get (row !! "name") = false →
     Py.truthy_get (row !! "operator") = false →
     Py.truthy_get (row !! "brand") = false →
     name s = "Unnamed Shop")
  ∧ (name s = "Unnamed Shop" ∨ name s = "" →
     ∀ shops n, convert_row true (shops, n) row = (shops, n + 1))
  ∧ (Py.truthy_opt_float (latitude s) = true →
     Py.truthy_opt_float (longitude s) = true →
     ∀ shops n, convert_row false (shops, n) row = (shops ++ [s], n)).
Proof.
  intros Hp. pose proof (parse_csv_row_name row s Hp) as Hn.
  assert (Hget : ∀ o rest, Py.truthy_get o = false → Py.get_or o rest = rest).
  { intros [v|] rest; simpl; [|done]. by intros ->. }
  assert (Hgot : ∀ o v rest, o = Some v → v ≠ "" → Py.get_or o rest = v).
  { intros o v rest -> Hv. simpl. apply truthy_str_true in Hv. by rewrite Hv. }
  repeat split.
  - intros v Hv Hne. by rewrite Hn, (Hgot _ v) by done.
  - intros H1 v Hv Hne.
    by rewrite Hn, (Hget (row !! "name")), (Hgot _ v) by done.
  - intros H1 H2 v Hv Hne.
    by rewrite Hn, (Hget (row !! "name")), (Hget (row !! "operator")),
      (Hgot _ v) by done.
  - intros H1 H2 H3.
    by rewrite Hn, (Hget (row !! "name")), (Hget (row !! "operator")),
      (Hget (row !! "brand")) by done.
  - intros Hs shops n. unfold convert_row. rewrite Hp. simpl.
    destruct Hs as [-> | ->]; done.
  - intros Hlat Hlon shops n. unfold convert_row. rewrite Hp, Hlat, Hlon. done.
Qed.

Lemma name_fallback_witness :
  (∀ v, berlin_row !! "name" = Some v → v ≠ "" → name berlin_shop = Py.strip v)
  ∧ (Py.truthy_get (berlin_row !! "name") = false →
     ∀ v, berlin_row !! "operator" = Some v → v ≠ "" → name berlin_shop = Py.strip v)
  ∧ (Py.truthy_get (berlin_row !! "name") = false →
     Py.truthy_get (berlin_row !! "operator") = false →
     ∀ v, berlin_row !! "brand" = Some v → v ≠ "" → name berlin_shop = Py.strip v)
  ∧ (Py.truthy_get (berlin_row !! "name") = false →
     Py.truthy_get (berlin_row !! "operator") = false →
     Py.truthy_get (berlin_row !! "brand") = false →
     name berlin_shop = "Unnamed Shop")
  ∧ (name berlin_shop = "Unnamed Shop" ∨ name berlin_shop = "" →
     ∀ shops n, convert_row true (shops, n) berlin_row = (shops, n + 1))
  ∧ (Py.truthy_opt_float (latitude berlin_shop) = true →
     Py.truthy_opt_float (longitude berlin_shop) = true →
     ∀ shops n,
       convert_row false (shops, n) berlin_row = (shops ++ [berlin_shop], n)).
Proof. apply (name_fallback berlin_row berlin_shop). vm_compute. reflexivity. Defined.

(** The table has 27 entries, keyed by two-letter codes. *)
Lemma country_map_size : size country_map = 27.
Proof. vm_compute. reflexivity. Qed.

Lemma country_map_keys code :
  is_Some (country_map !! code) → String.length code = 2.
Proof.
  intros [full Hl]. apply elem_of_list_to_map_2 in Hl.
  repeat (apply elem_of_cons in Hl as [[= -> _]|Hl]; [done|]).
  by apply elem_of_nil in Hl.
Qed.

Lemma parse_csv_row_city row s :
  parse_csv_row row = Py.Ok s →
  city s =
    let country_name :=
      if Py.truthy_str (field row "address_country")
      then get_country_name (field row "address_country")
      else if Py.truthy_str (field row "source_country")
      then field row "source_country"
      else "" in
    if Py.truthy_str (field row "address_city") && Py.truthy_str country_name
    then field row "address_city" +:+ ", " +:+ country_name
    else if Py.truthy_str country_name
    then "Unknown City, " +:+ country_name
    else if Py.truthy_str (field row "address_city")
    then field row "address_city" +:+ ", Unknown Country"
    else "Unknown City, Unknown Country".
Proof.
  unfold parse_csv_row, field.
  destruct (parse_coordinate row "latitude"); [|done].
  destruct (parse_coordinate row "longitude"); [|done].
  by intros [= <-].
Qed.

(** C6.  The country is the country field looked up (in upper case) in the
    table of the 27 countries, or the field itself when the table does not
    have it; the source_country field when the country field is empty; and
    empty otherwise.  The composed city is "city, country",
    "Unknown City, country", "city, Unknown Country" or
    "Unknown City, Unknown Country", by which of the two are known.  Fields
    are read stripped of white space; known means not empty. *)
Theorem city_composition row s :
  parse_csv_row row = Py.Ok s →
  ∃ country_name,
    (field row "address_country" ≠ "" →
     country_name =
       default (field row "address_country")
         (country_map !! Py.upper (field row "address_country")))
    ∧ (field row "address_country" = "" → field row "source_country" ≠ "" →
       country_name = field row "source_country")
    ∧ (field row "address_country" = "" → field row "source_country" = "" →
       country_name = "")
    ∧ (field row "address_city" ≠ "" → country_name ≠ "" →
       city s = field row "address_city" +:+ ", " +:+ country_name)
    ∧ (field row "address_city" = "" → country_name ≠ "" →
       city s = "Unknown City, " +:+ country_name)
    ∧ (field row "address_city" ≠ "" → country_name = "" →
       city s = field row "address_city" +:+ ", Unknown Country")
    ∧ (field row "address_city" = "" → country_name = "" →
       city s = "Unknown City, Unknown Country")
    ∧ size country_map = 27
    ∧ (∀ code, is_Some (country_map !! code) → String.length code = 2).
Proof.
  intros Hp. rewrite (parse_csv_row_city row s Hp). cbv zeta.
  set (city_name := field row "address_city").
  set (country_code := field row "address_country").
  set (source_country := field row "source_country").
  set (country_name :=
         if Py.truthy_str country_code then get_country_name country_code
         else if Py.truthy_str source_country then source_country else "").
  exists country_name.
  assert (Hcity : Py.truthy_str city_name = true ↔ city_name ≠ "")
    by apply truthy_str_true.
  assert (Hname : Py.truthy_str country_name = true ↔ country_name ≠ "")
    by apply truthy_str_true.
  split_and!; try exact country_map_size; try exact country_map_keys.
  - intros Hc%truthy_str_true. unfold country_name. by rewrite Hc.
  - intros Hc%truthy_str_false Hs%truthy_str_true. unfold country_name.
    by rewrite Hc, Hs.
  - intros Hc%truthy_str_false Hs%truthy_str_false. unfold country_name.
    by rewrite Hc, Hs.
  - intros H1%Hcity H2%Hname. by rewrite H1, H2.
  - intros H1%truthy_str_false H2%Hname. by rewrite H1, H2.
  - intros H1%Hcity H2%truthy_str_false. by rewrite H1, H2.
  - intros H1%truthy_str_false H2%truthy_str_false. by rewrite H1, H2.
Qed.

Lemma city_composition_witness :
  ∃ country_name,
    (field berlin_row "address_country" ≠ "" →
     country_name =
       default (field berlin_row "address_country")
         (country_map !! Py.upper (field berlin_row "address_country")))
    ∧ (field berlin_row "address_country" = "" →
       field berlin_row "source_country" ≠ "" →
       country_name = field berlin_row "source_country")
    ∧ (field berlin_row "address_country" = "" →
       field berlin_row "source_country" = "" →
       country_name = "")
    ∧ (field berlin_row "address_city" ≠ "" → country_name ≠ "" →
       city berlin_shop = field berlin_row "address_city" +:+ ", " +:+ country_name)
    ∧ (field berlin_row "address_city" = "" → country_name ≠ "" →
       city berlin_shop = "Unknown City, " +:+ country_name)
    ∧ (field berlin_row "address_city" ≠ "" → country_name = "" →
       city berlin_shop = field berlin_row "address_city" +:+ ", Unknown Country")
    ∧ (field berlin_row "address_city" = "" → country_name = "" →
       city berlin_shop = "Unknown City, Unknown Country")
    ∧ size country_map = 27
    ∧ (∀ code, is_Some (country_map !! code) → String.length code = 2).
Proof. apply (city_composition berlin_row berlin_shop). vm_compute. reflexivity. Defined.

(** A record the coordinate test refuses is refused for both settings of
    the unnamed filter. *)
Lemma accepts_coordinates skip_unnamed s :
  accepts skip_unnamed s = true →
  Py.truthy_opt_float (latitude s) = true
  ∧ Py.truthy_opt_float (longitude s) = true.
Proof. unfold accepts. rewrite !andb_true_iff. tauto. Qed.

Lemma rejected_not_accepted skip_unnamed s :
  accepts skip_unnamed s = false →
  (∀ rows, s ∉ (convert_rows skip_unnamed rows).1)
  ∧ (∀ row shops n, parse_csv_row row = Py.Ok s →
       convert_row skip_unnamed (shops, n) row = (shops, n + 1)).
Proof.
  intros Hr. split.
  - intros rows [Ha _]%accepted_elem_of. congruence.
  - intros row shops n Hp. rewrite convert_row_spec.
    unfold skipped_of, accepted_of. rewrite Hp, Hr. simpl.
    by rewrite (right_id_L [] (++)).
Qed.

(** C7.  A record with one coordinate present and the other absent is never
    among the accepted records, whatever the setting of the unnamed filter:
    the row that produced it is counted as skipped. *)
Theorem partial_coordinates_excluded skip_unnamed s :
  (is_Some (latitude s) ∧ longitude s = None)
  ∨ (latitude s = None ∧ is_Some (longitude s)) →
  (∀ rows, s ∉ (convert_rows skip_unnamed rows).1)
  ∧ (∀ row shops n, parse_csv_row row = Py.Ok s →
       convert_row skip_unnamed (shops, n) row = (shops, n + 1)).
Proof.
  intros Hpart. apply rejected_not_accepted. unfold accepts.
  destruct Hpart as [[_ ->] | [-> _]]; simpl.
  - apply andb_false_r.
  - by rewrite andb_false_r.
Qed.

Lemma partial_coordinates_excluded_witness :
  ((∀ rows, latitude_only_shop ∉ (convert_rows true rows).1)
   ∧ (∀ row shops n, parse_csv_row row = Py.Ok latitude_only_shop →
        convert_row true (shops, n) row = (shops, n + 1)))
  ∧ ((∀ rows, latitude_only_shop ∉ (convert_rows false rows).1)
     ∧ (∀ row shops n, parse_csv_row row = Py.Ok latitude_only_shop →
          convert_row false (shops, n) row = (shops, n + 1))).
Proof.
  split.
  - apply (partial_coordinates_excluded true latitude_only_shop).
    left. split; [eexists; reflexivity | reflexivity].
  - apply (partial_coordinates_excluded false latitude_only_shop).
    left. split; [eexists; reflexivity | reflexivity].
Defined.

(** C8, counterexample.  A row with a latitude and an empty longitude
    field is normalized to a record with a latitude and no longitude. *)
Lemma parse_csv_row_latitude_only :
  parse_csv_row latitude_only_row = Py.Ok latitude_only_shop
  ∧ is_Some (latitude latitude_only_shop)
  ∧ longitude latitude_only_shop = None.
Proof. split; [vm_compute; reflexivity | split; [eexists|]; reflexivity]. Qed.

(** C8, amended.  The normalizer reads the two coordinates independently:
    the latitude is present exactly when the latitude field is there and
    not empty, and likewise the longitude.  Every record the conversion
    loop accepts has both coordinates present. *)
Theorem coordinates_presence row s skip_unnamed rows :
  (parse_csv_row row = Py.Ok s →
   (is_Some (latitude s) ↔ Py.truthy_get (row !! "latitude") = true)
   ∧ (is_Some (longitude s) ↔ Py.truthy_get (row !! "longitude") = true))
  ∧ (s ∈ (convert_rows skip_unnamed rows).1 →
     is_Some (latitude s) ∧ is_Some (longitude s)).
Proof.
  split.
  - intros Hp. pose proof (parse_csv_row_coordinates row) as Hc.
    rewrite Hp in Hc. destruct Hc as [Hlat Hlon].
    apply parse_coordinate_ok in Hlat as [Hlat _].
    apply parse_coordinate_ok in Hlon as [Hlon _]. done.
  - intros [Ha _]%accepted_elem_of.
    apply accepts_coordinates in Ha as [Hlat Hlon].
    destruct (latitude s), (longitude s); done.
Qed.

(** C9.  When the normalizer raises on one row of a batch, the loop accepts
    exactly the records it accepts on the batch without that row, in the
    same order, and counts one skip more.  On every batch the accepted
    records and the skipped rows add up to the rows read.  The loop is a
    total function: no row makes it stop. *)
Theorem one_bad_row_is_one_skip skip_unnamed (before after : list Row) (bad : Row) :
  parse_csv_row bad = Py.Raise Py.ValueError →
  (convert_rows skip_unnamed (before ++ bad :: after)).1
    = (convert_rows skip_unnamed (before ++ after)).1
  ∧ (convert_rows skip_unnamed (before ++ bad :: after)).2
    = (convert_rows skip_unnamed (before ++ after)).2 + 1
  ∧ (∀ rows,
       length (convert_rows skip_unnamed rows).1 + (convert_rows skip_unnamed rows).2
       = length rows).
Proof.
  intros Hbad.
  assert (Hacc : accepted_of skip_unnamed bad = None).
  { unfold accepted_of. by rewrite Hbad. }
  split_and!; [..|apply convert_rows_count].
  - rewrite !convert_rows_spec. simpl. rewrite !omap_app. simpl. by rewrite Hacc.
  - assert (Hone : skipped_of skip_unnamed bad = 1).
    { unfold skipped_of. by rewrite Hacc. }
    rewrite !convert_rows_spec. cbn [snd].
    rewrite !fmap_app, fmap_cons, !sum_list_with_app. cbn [sum_list_with].
    rewrite Hone. unfold id. lia.
Qed.

Lemma one_bad_row_is_one_skip_witness :
  (convert_rows true ([berlin_row] ++ {[ "latitude" := "not-a-number" ]} :: [berlin_row])).1
    = (convert_rows true ([berlin_row] ++ [berlin_row])).1
  ∧ (convert_rows true ([berlin_row] ++ {[ "latitude" := "not-a-number" ]} :: [berlin_row])).2
    = (convert_rows true ([berlin_row] ++ [berlin_row])).2 + 1
  ∧ (∀ rows,
       length (convert_rows true rows).1 + (convert_rows true rows).2
       = length rows).
Proof.
  apply (one_bad_row_is_one_skip true [berlin_row] [berlin_row]
           {[ "latitude" := "not-a-number" ]}).
  vm_compute. reflexivity.
Defined.

(** C10.  A record with a latitude or a longitude that is present and zero
    (of either sign) is never among the accepted records: the row that
    produced it is counted as skipped, as if the coordinate were absent.
    The migrator counts such a record as failed and does not upload it. *)
Theorem zero_coordinate_rejected skip_unnamed s (sign : bool) :
  latitude s = Some (S754_zero sign) ∨ longitude s = Some (S754_zero sign) →
  (∀ rows, s ∉ (convert_rows skip_unnamed rows).1)
  ∧ (∀ row shops n, parse_csv_row row = Py.Ok s →
       convert_row skip_unnamed (shops, n) row = (shops, n + 1))
  ∧ (∀ transformed_shops n,
       Migrator.prepare_shop (transformed_shops, n) s = (transformed_shops, n + 1)).
Proof.
  intros Hz.
  assert (Hr : Py.truthy_opt_float (latitude s) && Py.truthy_opt_float (longitude s)
               = false).
  { destruct Hz as [-> | ->]; simpl; [done | apply andb_false_r]. }
  split_and!.
  - apply rejected_not_accepted. unfold accepts.
    by rewrite <- andb_assoc, Hr, andb_false_r.
  - apply rejected_not_accepted. unfold accepts.
    by rewrite <- andb_assoc, Hr, andb_false_r.
  - intros ts n. unfold Migrator.prepare_shop, Migrator.transform_shop.
    destruct (if Py.contains ", " (city s) then _ else _) as [c1 c2].
    unfold Migrator.valid. cbn [Migrator.latitude Migrator.longitude].
    destruct (Py.truthy_opt_float (latitude s)) eqn:Hlat,
      (Py.truthy_opt_float (longitude s)) eqn:Hlon; simpl in Hr; try done.
    by rewrite Hlat.
Qed.

Lemma zero_coordinate_rejected_witness :
  (∀ rows, equator_shop ∉ (convert_rows true rows).1)
  ∧ (∀ row shops n, parse_csv_row row = Py.Ok equator_shop →
       convert_row true (shops, n) row = (shops, n + 1))
  ∧ (∀ transformed_shops n,
       Migrator.prepare_shop (transformed_shops, n) equator_shop
       = (transformed_shops, n + 1)).
Proof.
  apply (zero_coordinate_rejected true equator_shop false). left. reflexivity.
Defined.

End Claims.

(** ** The country index *)

Section Index.
Import Converter.
Implicit Types (m : gmap string (gset string)) (s : shop) (records : list shop).
Implicit Types (country town : string).

Lemma add_city_in m c t country town :
  in_index (add_city m c t) country town
  ↔ in_index m country town ∨ (country = c ∧ town = t).
Proof.
  unfold in_index, add_city. destruct (decide (c = country)) as [->|Hne].
  - setoid_rewrite lookup_insert_eq. split.
    + intros (cs & [= <-] & Hin). apply elem_of_union in Hin as [Hin|Hin].
      * left. destruct (m !! country) as [cs|]; simpl in Hin; [eauto|].
        by apply not_elem_of_empty in Hin.
      * right. by apply elem_of_singleton in Hin.
    + intros [(cs & Hl & Hin) | [_ ->]]; eexists; (split; [done|]).
      * rewrite Hl. simpl. apply elem_of_union. by left.
      * apply elem_of_union. right. by apply elem_of_singleton.
  - setoid_rewrite lookup_insert_ne; [|done]. split; [by left|].
    intros [H | [-> _]]; done.
Qed.

Lemma add_city_no_empty_set m c t :
  no_empty_set m → no_empty_set (add_city m c t).
Proof.
  intros Hm country cs. unfold add_city.
  destruct (decide (c = country)) as [->|Hne].
  - rewrite lookup_insert_eq. intros [= <-]. set_solver.
  - rewrite lookup_insert_ne by done. apply Hm.
Qed.

Lemma add_city_comm m c1 t1 c2 t2 :
  add_city (add_city m c1 t1) c2 t2 = add_city (add_city m c2 t2) c1 t1.
Proof.
  unfold add_city. destruct (decide (c1 = c2)) as [->|Hne].
  - rewrite !lookup_insert_eq, !insert_insert_eq. simpl. f_equal.
    by rewrite <- !(assoc_L (∪)), (comm_L (∪) {[t1]}).
  - rewrite !lookup_insert_ne by done. by apply insert_insert_ne.
Qed.

Lemma index_shop_contribution m s :
  index_shop m s =
  match contribution s with
  | Some (country, town) => add_city m country town
  | None => m
  end.
Proof.
  unfold index_shop, contribution.
  destruct (Py.contains ", " (city s)); [|done].
  by destruct (_ && _).
Qed.

Lemma contribution_spec s country town :
  contribution s = Some (country, town) ↔ contributes s country town.
Proof.
  unfold contribution, contributes.
  destruct (Py.contains ", " (city s)); [|split; [done | by intros [? _]]].
  destruct (Py.truthy_str _) eqn:Ht; simpl.
  - destruct (Py.truthy_str (Py.strip (default "" (last _)))) eqn:Hc.
    + apply truthy_str_true in Ht, Hc. split.
      * by intros [= <- <-].
      * by intros (_ & -> & -> & _).
    + apply truthy_str_false in Hc. split; [done|].
      intros (_ & _ & -> & _ & Hne). done.
  - apply truthy_str_false in Ht. split; [done|].
    intros (_ & -> & _ & Hne & _). done.
Qed.

Lemma index_shop_in m s country town :
  in_index (index_shop m s) country town
  ↔ in_index m country town ∨ contributes s country town.
Proof.
  rewrite index_shop_contribution, <- contribution_spec.
  destruct (contribution s) as [[c t]|].
  - rewrite add_city_in. split; (intros [?|H]; [by left | right]).
    + by destruct H as [-> ->].
    + by simplify_eq.
  - split; [by left | by intros [?|?]].
Qed.

Lemma index_shop_no_empty_set m s :
  no_empty_set m → no_empty_set (index_shop m s).
Proof.
  rewrite index_shop_contribution. destruct (contribution s) as [[c t]|]; [|done].
  apply add_city_no_empty_set.
Qed.

Lemma index_shop_comm m s1 s2 :
  index_shop (index_shop m s1) s2 = index_shop (index_shop m s2) s1.
Proof.
  rewrite !index_shop_contribution.
  destruct (contribution s1) as [[c1 t1]|], (contribution s2) as [[c2 t2]|];
    try done. apply add_city_comm.
Qed.

Lemma foldl_index_shop_in records m country town :
  in_index (foldl index_shop m records) country town
  ↔ in_index m country town ∨ ∃ s, s ∈ records ∧ contributes s country town.
Proof.
  revert m. induction records as [|s records IH]; intros m; cbn [foldl].
  - split; [by left|]. intros [?|(s & Hin & _)]; [done|].
    by apply elem_of_nil in Hin.
  - rewrite IH, index_shop_in. split.
    + intros [[?|?]|(s' & Hin & ?)]; [by left | right..].
      * exists s. split; [apply elem_of_cons; by left | done].
      * exists s'. split; [apply elem_of_cons; by right | done].
    + intros [?|(s' & [->|Hin]%elem_of_cons & ?)].
      * left. by left.
      * left. by right.
      * right. eauto.
Qed.

Lemma foldl_index_shop_no_empty_set records m :
  no_empty_set m → no_empty_set (foldl index_shop m records).
Proof.
  revert m. induction records as [|s records IH]; intros m Hm; cbn [foldl];
    [done|]. by apply IH, index_shop_no_empty_set.
Qed.

(** A left fold of a step whose turns commute does not depend on the order
    of the list. *)
Lemma foldl_permutation {A B} (f : A → B → A) (l l' : list B) :
  (∀ a x y, f (f a x) y = f (f a y) x) →
  l ≡ₚ l' → ∀ a, foldl f a l = foldl f a l'.
Proof.
  intros Hf. induction 1 as [|x l l' _ IH|x y l|l l' l'' _ IH1 _ IH2];
    intros a; cbn [foldl].
  - done.
  - apply IH.
  - by rewrite Hf.
  - by rewrite IH1.
Qed.

#[local] Instance item_le_total {V} : Total (@Py.item_le V).
Proof. intros a b. apply (total String.le). Qed.

Lemma sorted_str_permutation (l : list string) : Py.sorted_str l ≡ₚ l.
Proof. apply merge_sort_Permutation. Qed.

Lemma sorted_items_permutation {V} (l : list (string * V)) : Py.sorted_items l ≡ₚ l.
Proof. apply merge_sort_Permutation. Qed.

Lemma elem_of_sorted_elements (cs : gset string) town :
  town ∈ Py.sorted_str (elements cs) ↔ town ∈ cs.
Proof. by rewrite sorted_str_permutation, elem_of_elements. Qed.

(** The items of the result are the countries of the dictionary, each with
    its set as a sorted list. *)
Lemma elem_of_build_countries_dict records country (cities : list string) :
  (country, cities) ∈ build_countries_dict records
  ↔ ∃ cs, foldl index_shop ∅ records !! country = Some cs
          ∧ cities = Py.sorted_str (elements cs).
Proof.
  unfold build_countries_dict. rewrite list_elem_of_fmap. split.
  - intros ([c cs] & [= -> ->] & Hin).
    rewrite sorted_items_permutation in Hin.
    apply elem_of_map_to_list in Hin. eauto.
  - intros (cs & Hl & ->). exists (country, cs). split; [done|].
    rewrite sorted_items_permutation. by apply elem_of_map_to_list.
Qed.

Lemma build_countries_dict_keys records :
  (build_countries_dict records).*1
  = (Py.sorted_items (map_to_list (foldl index_shop ∅ records))).*1.
Proof.
  unfold build_countries_dict. rewrite <- list_fmap_compose.
  apply list_fmap_ext. by intros _ [c cs] _.
Qed.

(** C3, counterexample.  The index of a run whose only record has the
    composed city "Unknown City, France" keeps France, with the sentinel as
    its one city. *)
Lemma unknown_city_is_indexed :
  convert_csv_to_json [france_row] true
  = {| shops := [france_shop];
       countries := [("France", ["Unknown City"])];
       skipped_count := 0 |}.
Proof. vm_compute. reflexivity. Qed.

(** C3, amended.  Every country of the index has a non-empty list of
    cities, and neither a country nor a city is the empty string.  A city
    is listed under a country exactly when some record has a composed
    string with the separator whose stripped first piece is the city and
    whose stripped last piece is the country, both non-empty.  The sentinel
    "Unknown City" is a city like any other: it is listed, and a country
    whose only city is the sentinel is kept. *)
Theorem index_cities records country town :
  ((∃ cities, (country, cities) ∈ build_countries_dict records ∧ town ∈ cities)
   ↔ ∃ s, s ∈ records ∧ contributes s country town)
  ∧ (∀ cities, (country, cities) ∈ build_countries_dict records →
       cities ≠ [] ∧ country ≠ "" ∧ "" ∉ cities).
Proof.
  assert (Hin : ∀ c t, in_index (foldl index_shop ∅ records) c t
                       ↔ ∃ s, s ∈ records ∧ contributes s c t).
  { intros c t. rewrite foldl_index_shop_in. split; [|by right].
    intros [(cs & Hl & _)|?]; [|done]. by rewrite lookup_empty in Hl. }
  split.
  - rewrite <- Hin. unfold in_index.
    setoid_rewrite elem_of_build_countries_dict. split.
    + intros (cities & (cs & Hl & ->) & Ht).
      apply elem_of_sorted_elements in Ht. eauto.
    + intros (cs & Hl & Ht). exists (Py.sorted_str (elements cs)).
      split; [eauto | by apply elem_of_sorted_elements].
  - intros cities (cs & Hl & ->)%elem_of_build_countries_dict.
    assert (Hne : cs ≠ ∅).
    { eapply (foldl_index_shop_no_empty_set records ∅); [|done].
      intros c cs'. by rewrite lookup_empty. }
    apply set_choose_L in Hne as [t Ht]. split_and!.
    + intros Hnil. apply elem_of_sorted_elements in Ht.
      rewrite Hnil in Ht. by apply elem_of_nil in Ht.
    + assert (in_index (foldl index_shop ∅ records) country t) as Hi
        by (exists cs; eauto).
      apply Hin in Hi as (s & _ & Hc). by destruct Hc as (_ & _ & _ & _ & ?).
    + intros He%elem_of_sorted_elements.
      assert (in_index (foldl index_shop ∅ records) country "") as Hi
        by (exists cs; eauto).
      apply Hin in Hi as (s & _ & Hc). by destruct Hc as (_ & _ & _ & ? & _).
Qed.

(** C4.  Two lists of records that are permutations of one another have
    the same index.  The countries of an index are in increasing order and
    none comes twice; the cities of each country are in increasing order
    and none comes twice.  The order is that of the strings, character by
    character. *)
Theorem index_permutation records records' :
  records ≡ₚ records' →
  build_countries_dict records = build_countries_dict records'
  ∧ Sorted String.le (build_countries_dict records).*1
  ∧ NoDup (build_countries_dict records).*1
  ∧ (∀ country cities, (country, cities) ∈ build_countries_dict records →
       Sorted String.le cities ∧ NoDup cities).
Proof.
  intros Hperm. split_and!.
  - unfold build_countries_dict.
    by rewrite (foldl_permutation index_shop _ _ index_shop_comm Hperm).
  - rewrite build_countries_dict_keys.
    apply Sorted_fmap with (R1 := Py.item_le); [done|].
    apply (Sorted_merge_sort Py.item_le).
  - rewrite build_countries_dict_keys, sorted_items_permutation.
    apply NoDup_fst_map_to_list.
  - intros country cities (cs & _ & ->)%elem_of_build_countries_dict. split.
    + apply (Sorted_merge_sort String.le).
    + rewrite sorted_str_permutation. apply NoDup_elements.
Qed.

Lemma index_permutation_witness :
  build_countries_dict berlin_france = build_countries_dict france_berlin
  ∧ Sorted String.le (build_countries_dict berlin_france).*1
  ∧ NoDup (build_countries_dict berlin_france).*1
  ∧ (∀ country cities, (country, cities) ∈ build_countries_dict berlin_france →
       Sorted String.le cities ∧ NoDup cities).
Proof. apply (index_permutation berlin_france france_berlin). apply perm_swap. Defined.

End Index.

(** * Further properties *)

(** ** The fields of a normalized record *)

Section Fields.
Import Converter.
Implicit Types (row : Row) (s : shop).

Lemma parse_csv_row_fields row s :
  parse_csv_row row = Py.Ok s →
  address s =
    (let address_parts :=
       match row !! "address_street" with
       | Some street =>
           if Py.truthy_str street then
             let housenumber := Py.get_default (row !! "address_housenumber") in
             if Py.truthy_str housenumber
             then [street +:+ " " +:+ housenumber]
             else [street]
           else []
       | None => []
       end in
     match address_parts with
     | [] => "Address not available"
     | _ => Py.join ", " (filter (λ p, Py.truthy_str p) address_parts)
     end)
  ∧ phone s = Py.get_or (row !! "phone") (Py.get_or (row !! "mobile") "N/A")
  ∧ website s = Py.get_or (row !! "website") "N/A"
  ∧ hours s = Py.get_or (row !! "opening_hours") "Hours not available"
  ∧ business_type s = determine_business_type row
  ∧ rating s = "N/A"
  ∧ reviews_count s = "0".
Proof.
  unfold parse_csv_row.
  destruct (parse_coordinate row "latitude"); [|done].
  destruct (parse_coordinate row "longitude"); [|done].
  by intros [= <-].
Qed.

Lemma get_or_missing (o : option string) (rest : string) :
  Py.truthy_get o = false → Py.get_or o rest = rest.
Proof. destruct o as [v|]; simpl; [|done]. by intros ->. Qed.

Lemma get_or_present (o : option string) (v rest : string) :
  o = Some v → v ≠ "" → Py.get_or o rest = v.
Proof. intros -> Hv%truthy_str_true. simpl. by rewrite Hv. Qed.

Lemma get_or_not_empty (o : option string) (rest : string) :
  rest ≠ "" → Py.get_or o rest ≠ "".
Proof.
  intros Hr. destruct o as [v|]; simpl; [|done].
  destruct (Py.truthy_str v) eqn:Hv; [|done]. by apply truthy_str_true.
Qed.

Lemma app_not_empty (a b : string) : a ≠ "" → a +:+ b ≠ "".
Proof. by destruct a. Qed.

Lemma filter_truthy_singleton (x : string) :
  x ≠ "" → filter (λ p, Py.truthy_str p) [x] = [x].
Proof.
  intros Hx%truthy_str_true. rewrite filter_cons, decide_True; [done|].
  by rewrite Hx.
Qed.

(** X1.  The business type is one of four labels, each under its own
    condition on the shop_type, amenity and craft columns: the repair shop
    label when one of the three is motorcycle_repair; otherwise the
    dealership label when shop_type is motorcycle; otherwise the repair
    service label when shop_type or amenity contains "repair" in any letter
    case; otherwise the catch-all label.  A craft that only contains
    "repair" does not count. *)
Theorem determine_business_type_cases row :
  (determine_business_type row = "Motorcycle Repair Shop"
   ↔ Py.get_default (row !! "shop_type") = "motorcycle_repair"
     ∨ Py.get_default (row !! "amenity") = "motorcycle_repair"
     ∨ Py.get_default (row !! "craft") = "motorcycle_repair")
  ∧ (determine_business_type row = "Motorcycle Dealership"
     ↔ Py.get_default (row !! "shop_type") = "motorcycle"
       ∧ Py.get_default (row !! "amenity") ≠ "motorcycle_repair"
       ∧ Py.get_default (row !! "craft") ≠ "motorcycle_repair")
  ∧ (determine_business_type row = "Repair Service"
     ↔ Py.get_default (row !! "shop_type") ≠ "motorcycle_repair"
       ∧ Py.get_default (row !! "amenity") ≠ "motorcycle_repair"
       ∧ Py.get_default (row !! "craft") ≠ "motorcycle_repair"
       ∧ Py.get_default (row !! "shop_type") ≠ "motorcycle"
       ∧ (has_substring "repair" (Py.lower (Py.get_default (row !! "shop_type")))
          ∨ has_substring "repair" (Py.lower (Py.get_default (row !! "amenity")))))
  ∧ (determine_business_type row = "Motorcycle Shop"
     ↔ Py.get_default (row !! "shop_type") ≠ "motorcycle_repair"
       ∧ Py.get_default (row !! "amenity") ≠ "motorcycle_repair"
       ∧ Py.get_default (row !! "craft") ≠ "motorcycle_repair"
       ∧ Py.get_default (row !! "shop_type") ≠ "motorcycle"
       ∧ ¬ has_substring "repair" (Py.lower (Py.get_default (row !! "shop_type")))
       ∧ ¬ has_substring "repair" (Py.lower (Py.get_default (row !! "amenity")))).
Proof.
  unfold determine_business_type.
  set (shop_type := Py.get_default (row !! "shop_type")).
  set (amenity := Py.get_default (row !! "amenity")).
  set (craft := Py.get_default (row !! "craft")).
  rewrite <- !contains_spec.
  destruct (bool_decide (shop_type = "motorcycle_repair")
            || bool_decide (amenity = "motorcycle_repair")
            || bool_decide (craft = "motorcycle_repair")) eqn:Ha.
  { rewrite !orb_true_iff, !bool_decide_eq_true in Ha.
    split_and!; (split; [intros Heq; try discriminate Heq | intros Hc; try reflexivity]);
      intuition congruence. }
  rewrite !orb_false_iff, !bool_decide_eq_false in Ha. destruct Ha as [[H1 H2] H3].
  destruct (bool_decide (shop_type = "motorcycle")) eqn:Hb.
  { apply bool_decide_eq_true in Hb.
    split_and!; (split; [intros Heq; try discriminate Heq | intros Hc; try reflexivity]);
      intuition congruence. }
  apply bool_decide_eq_false in Hb.
  destruct (Py.contains "repair" (Py.lower shop_type)) eqn:H5,
    (Py.contains "repair" (Py.lower amenity)) eqn:H6; cbn [orb];
    split_and!; (split; [intros Heq; try discriminate Heq | intros Hc; try reflexivity]);
    intuition congruence.
Qed.

End Fields.

(** ** Stripping and splitting *)

Lemma lstrip_head (s : string) :
  match Py.lstrip s with
  | String c _ => Py.isspace c = false
  | "" => True
  end.
Proof.
  induction s as [|c s IH]; simpl; [done|].
  destruct (Py.isspace c) eqn:Hc; [done|]. by rewrite Hc.
Qed.

Lemma lstrip_id (c : ascii) (s : string) :
  Py.isspace c = false → Py.lstrip (String c s) = String c s.
Proof. intros Hc. simpl. by rewrite Hc. Qed.

Lemma rstrip_head (c : ascii) (s : string) :
  Py.isspace c = false → ∃ r, Py.rstrip (String c s) = String c r.
Proof.
  intros Hc. simpl. destruct (Py.rstrip s); [|by eauto].
  rewrite Hc. eauto.
Qed.

Lemma rstrip_idemp (s : string) : Py.rstrip (Py.rstrip s) = Py.rstrip s.
Proof.
  induction s as [|c s IH]; simpl; [done|].
  destruct (Py.rstrip s) as [|d r] eqn:Hr.
  - destruct (Py.isspace c) eqn:Hc; simpl; [done|]. by rewrite Hc.
  - simpl in *. by rewrite IH.
Qed.

Lemma strip_idemp (s : string) : Py.strip (Py.strip s) = Py.strip s.
Proof.
  unfold Py.strip. pose proof (lstrip_head s) as Hh.
  destruct (Py.lstrip s) as [|c t] eqn:Hl; [done|].
  destruct (rstrip_head c t Hh) as [r Hr]. rewrite Hr.
  rewrite (lstrip_id c r Hh), <- Hr. apply rstrip_idemp.
Qed.

(** A string without the separator is one piece. *)
Lemma split_go_without (sep s : string) :
  Py.contains sep s = false → Py.split_go sep 0 s = (s, []).
Proof.
  induction s as [|c s IH]; [done|].
  cbn [Py.contains Py.split_go]. intros [Hs Hc]%orb_false_iff.
  by rewrite Hs, (IH Hc).
Qed.

Lemma split_without (sep s : string) :
  Py.contains sep s = false → Py.split sep s = [s].
Proof. intros H. unfold Py.split. by rewrite split_go_without. Qed.

(** The characters of a separator that was found are passed over. *)
Lemma split_go_skip (sep t s : string) :
  Py.split_go sep (String.length t) (t +:+ s) = Py.split_go sep 0 s.
Proof. induction t as [|c t IH]; [done|]. rewrite app_cons. simpl. apply IH. Qed.

Lemma split_go_at_separator (c : ascii) (t s : string) :
  Py.split_go (String c t) 0 (String c t +:+ s) =
  ("", (Py.split_go (String c t) 0 s).1 :: (Py.split_go (String c t) 0 s).2).
Proof.
  rewrite app_cons. cbn [Py.split_go].
  replace (Py.startswith (String c t) (String c (t +:+ s))) with true
    by (symmetry; apply startswith_spec; by exists s).
  replace (String.length (String c t) - 1) with (String.length t)
    by (cbn [String.length]; lia).
  rewrite split_go_skip. by destruct (Py.split_go (String c t) 0 s).
Qed.

(** The separator of the composed city, a comma and a space: the piece
    before its first occurrence. *)
Lemma split_go_comma_space (a b : string) :
  Py.contains ", " a = false →
  Py.split_go ", " 0 (a +:+ ", " +:+ b) =
  (a, (Py.split_go ", " 0 b).1 :: (Py.split_go ", " 0 b).2).
Proof.
  induction a as [|x a IH]; intros Ha.
  - rewrite app_empty_l. apply (split_go_at_separator "," " " b).
  - cbn [Py.contains] in Ha. apply orb_false_iff in Ha as [Hs Ha].
    rewrite app_cons. cbn [Py.split_go].
    assert (Py.startswith ", " (String x (a +:+ ", " +:+ b)) = false) as ->.
    { destruct a as [|y a].
      - rewrite app_empty_l. cbn. by rewrite andb_false_r.
      - rewrite app_cons. cbn in Hs |- *.
        destruct (bool_decide (","%char = x)); [|done].
        by destruct (bool_decide (" "%char = y)). }
    by rewrite (IH Ha).
Qed.

(** A composed string of two halves without the separator splits into the
    two halves. *)
Lemma split_two_halves (a b : string) :
  Py.contains ", " a = false → Py.contains ", " b = false →
  Py.split ", " (a +:+ ", " +:+ b) = [a; b].
Proof.
  intros Ha Hb. unfold Py.split.
  by rewrite split_go_comma_space, split_go_without.
Qed.

Lemma contains_two_halves (a b : string) :
  Py.contains ", " (a +:+ ", " +:+ b) = true.
Proof. apply contains_spec. by exists a, b. Qed.

(** ** The normalizer, field by field *)

Section MoreFields.
Import Converter.
Implicit Types (row : Row) (s : shop).

Lemma parse_dealer_row : parse_csv_row dealer_row = Py.Ok dealer_shop.
Proof. vm_compute. reflexivity. Qed.

(** X3.  The address is the street and the house number with one space
    between them, the street alone when there is no house number, and the
    sentinel when there is no street, with or without a house number.  The
    two fields are taken as they are, not stripped. *)
Theorem address_composition row s :
  parse_csv_row row = Py.Ok s →
  (∀ street number,
     row !! "address_street" = Some street → street ≠ "" →
     row !! "address_housenumber" = Some number → number ≠ "" →
     address s = street +:+ " " +:+ number)
  ∧ (∀ street,
       row !! "address_street" = Some street → street ≠ "" →
       Py.truthy_get (row !! "address_housenumber") = false →
       address s = street)
  ∧ (Py.truthy_get (row !! "address_street") = false →
     address s = "Address not available").
Proof.
  intros (Ha & _)%parse_csv_row_fields. rewrite Ha. clear Ha. split_and!.
  - intros street number -> Hs%truthy_str_true -> Hn%truthy_str_true.
    cbn [Py.get_default from_option id]. cbv zeta. rewrite Hs, Hn.
    rewrite filter_truthy_singleton; [done|].
    apply app_not_empty. by apply truthy_str_true.
  - intros street -> Hs Hn. pose proof Hs as Hs'%truthy_str_true.
    rewrite Hs'. cbv zeta.
    assert (Py.truthy_str (Py.get_default (row !! "address_housenumber")) = false) as ->.
    { by destruct (row !! "address_housenumber"). }
    by rewrite filter_truthy_singleton.
  - intros Hs. destruct (row !! "address_street") as [street|]; [|done].
    simpl in Hs. by rewrite Hs.
Qed.

Lemma address_composition_witness :
  parse_csv_row dealer_row = Py.Ok dealer_shop
  ∧ address dealer_shop = "Main St" +:+ " " +:+ "12".
Proof.
  split; [vm_compute; reflexivity|].
  refine (proj1 (address_composition dealer_row dealer_shop _) "Main St" "12" _ _ _ _);
    solve [vm_compute; reflexivity | done].
Defined.

(** X4.  The phone is the phone field, or the mobile field when the phone
    field is missing or empty, or "N/A"; the website and the opening hours
    are their fields, or "N/A" and "Hours not available".  The values are
    taken as they are.  The rating is always "N/A" and the number of reviews
    always "0". *)
Theorem contact_fallbacks row s :
  parse_csv_row row = Py.Ok s →
  (∀ v, row !! "phone" = Some v → v ≠ "" → phone s = v)
  ∧ (Py.truthy_get (row !! "phone") = false →
     ∀ v, row !! "mobile" = Some v → v ≠ "" → phone s = v)
  ∧ (Py.truthy_get (row !! "phone") = false →
     Py.truthy_get (row !! "mobile") = false → phone s = "N/A")
  ∧ (∀ v, row !! "website" = Some v → v ≠ "" → website s = v)
  ∧ (Py.truthy_get (row !! "website") = false → website s = "N/A")
  ∧ (∀ v, row !! "opening_hours" = Some v → v ≠ "" → hours s = v)
  ∧ (Py.truthy_get (row !! "opening_hours") = false →
     hours s = "Hours not available")
  ∧ rating s = "N/A"
  ∧ reviews_count s = "0".
Proof.
  intros (_ & Hp & Hw & Hh & _ & Hr & Hc)%parse_csv_row_fields.
  rewrite Hp, Hw, Hh. split_and!; try done.
  - intros v Hv Hne. by apply get_or_present.
  - intros H1 v Hv Hne. rewrite get_or_missing by done. by apply get_or_present.
  - intros H1 H2. by rewrite !get_or_missing.
  - intros v Hv Hne. by apply get_or_present.
  - intros H1. by rewrite get_or_missing.
  - intros v Hv Hne. by apply get_or_present.
  - intros H1. by rewrite get_or_missing.
Qed.

Lemma contact_fallbacks_witness :
  parse_csv_row dealer_row = Py.Ok dealer_shop
  ∧ phone dealer_shop = "+49 30 1234".
Proof.
  split; [vm_compute; reflexivity|].
  refine (proj1 (proj2 (contact_fallbacks dealer_row dealer_shop _)) _
            "+49 30 1234" _ _);
    solve [vm_compute; reflexivity | done].
Defined.

End MoreFields.

(** ** From the tags to the business type *)

Section Labels.
Import Converter.
Implicit Types (tags : gmap string string).

Lemma csv_row_columns tags (source_country osm_id osm_type lat lon : string) :
  let row := Extractor.csv_row tags source_country osm_id osm_type lat lon in
  row !! "shop_type" = Some (Py.get_default (tags !! "shop"))
  ∧ row !! "amenity" = Some (Py.get_default (tags !! "amenity"))
  ∧ row !! "craft" = Some (Py.get_default (tags !! "craft")).
Proof. split_and!; reflexivity. Qed.

Lemma get_default_eq (o : option string) (v : string) :
  v ≠ "" → Py.get_default o = v ↔ o = Some v.
Proof.
  intros Hv. destruct o as [w|]; simpl.
  - split; [by intros -> | by intros [= ->]].
  - split; [by intros <- | done].
Qed.

Lemma classifier_accepts tags :
  Extractor._is_motorcycle_repair_shop tags = true →
  tags !! "shop" = Some "motorcycle_repair"
  ∨ tags !! "shop" = Some "motorcycle"
  ∨ tags !! "amenity" = Some "motorcycle_repair"
  ∨ tags !! "craft" = Some "motorcycle_repair"
  ∨ (tags !! "service:vehicle:motorcycle" = Some "yes"
     ∧ (tags !! "service:vehicle:repair" = Some "yes"
        ∨ tags !! "repair" = Some "yes"
        ∨ Py.contains "repair" (Py.get_default (tags !! "craft")) = true)).
Proof.
  unfold Extractor._is_motorcycle_repair_shop.
  case_bool_decide as Hs.
  { intros _. apply elem_of_cons in Hs as [Hs|Hs]; [by left|].
    apply elem_of_cons in Hs as [Hs|Hs]; [right; left; done|].
    by apply elem_of_nil in Hs. }
  case_bool_decide as Ha; [intros _; right; right; left; done|].
  destruct (_ && _) eqn:Hsv.
  { intros _. apply andb_true_iff in Hsv as [Hm Hr].
    apply bool_decide_eq_true in Hm.
    rewrite !orb_true_iff, !bool_decide_eq_true in Hr.
    right; right; right; right. split; [done | tauto]. }
  clear Hsv. case_bool_decide as Hc.
  - intros _. right; right; right; left. exact Hc.
  - discriminate.
Qed.

(** X2.  For an element the classifier accepts, the business type of its
    row is the repair shop label exactly when the shop, amenity or craft tag
    is motorcycle_repair, and the dealership label exactly when the shop tag
    is motorcycle and no such tag is there.  The two remaining labels are
    only given to elements accepted through the service tags:
    service:vehicle:motorcycle = yes with a sign of repair. *)
Theorem accepted_business_type tags (source_country osm_id osm_type lat lon : string) :
  Extractor._is_motorcycle_repair_shop tags = true →
  (determine_business_type
     (Extractor.csv_row tags source_country osm_id osm_type lat lon)
   = "Motorcycle Repair Shop"
   ↔ tags !! "shop" = Some "motorcycle_repair"
     ∨ tags !! "amenity" = Some "motorcycle_repair"
     ∨ tags !! "craft" = Some "motorcycle_repair")
  ∧ (determine_business_type
       (Extractor.csv_row tags source_country osm_id osm_type lat lon)
     = "Motorcycle Dealership"
     ↔ tags !! "shop" = Some "motorcycle"
       ∧ tags !! "amenity" ≠ Some "motorcycle_repair"
       ∧ tags !! "craft" ≠ Some "motorcycle_repair")
  ∧ (determine_business_type
       (Extractor.csv_row tags source_country osm_id osm_type lat lon)
     = "Repair Service"
     ∨ determine_business_type
         (Extractor.csv_row tags source_country osm_id osm_type lat lon)
       = "Motorcycle Shop" →
     tags !! "service:vehicle:motorcycle" = Some "yes"
     ∧ (tags !! "service:vehicle:repair" = Some "yes"
        ∨ tags !! "repair" = Some "yes"
        ∨ ∃ craft, tags !! "craft" = Some craft ∧ has_substring "repair" craft)).
Proof.
  intros Hacc%classifier_accepts.
  destruct (csv_row_columns tags source_country osm_id osm_type lat lon)
    as (Hst & Ham & Hcr).
  set (row := Extractor.csv_row tags source_country osm_id osm_type lat lon) in *.
  assert (Hrepair :
    determine_business_type row = "Motorcycle Repair Shop"
    ↔ tags !! "shop" = Some "motorcycle_repair"
      ∨ tags !! "amenity" = Some "motorcycle_repair"
      ∨ tags !! "craft" = Some "motorcycle_repair").
  { unfold determine_business_type. rewrite Hst, Ham, Hcr.
    cbn [Py.get_default from_option id].
    rewrite <- !(get_default_eq _ "motorcycle_repair") by done.
    destruct (bool_decide _ || bool_decide _ || bool_decide _) eqn:Ha.
    - rewrite !orb_true_iff, !bool_decide_eq_true in Ha. tauto.
    - rewrite !orb_false_iff, !bool_decide_eq_false in Ha.
      split; [|tauto]. repeat (case_match; try done). }
  assert (Hdealer :
    determine_business_type row = "Motorcycle Dealership"
    ↔ tags !! "shop" = Some "motorcycle"
      ∧ tags !! "amenity" ≠ Some "motorcycle_repair"
      ∧ tags !! "craft" ≠ Some "motorcycle_repair").
  { unfold determine_business_type. rewrite Hst, Ham, Hcr.
    cbn [Py.get_default from_option id].
    rewrite <- !(get_default_eq _ "motorcycle_repair") by done.
    rewrite <- (get_default_eq _ "motorcycle") by done.
    destruct (bool_decide _ || bool_decide _ || bool_decide _) eqn:Ha.
    - rewrite !orb_true_iff, !bool_decide_eq_true in Ha.
      split; [done|]. intros (Hm & ? & ?). destruct Ha as [[Ha|?]|?]; try done.
      rewrite Hm in Ha. done.
    - rewrite !orb_false_iff, !bool_decide_eq_false in Ha.
      case_bool_decide as Hm; [tauto|].
      split; [|tauto]. repeat (case_match; try done). }
  split_and!; [done | done |].
  intros Hlabel.
  assert (Hno : ¬ (tags !! "shop" = Some "motorcycle_repair"
                   ∨ tags !! "amenity" = Some "motorcycle_repair"
                   ∨ tags !! "craft" = Some "motorcycle_repair")).
  { rewrite <- Hrepair. destruct Hlabel as [-> | ->]; done. }
  assert (Hnd : tags !! "shop" ≠ Some "motorcycle").
  { intros Hm. assert (determine_business_type row = "Motorcycle Dealership") as Hd.
    { apply Hdealer. split; [done|]. tauto. }
    rewrite Hd in Hlabel. destruct Hlabel; done. }
  destruct Hacc as [?|[?|[?|[?|[Hm Hr]]]]]; try tauto.
  split; [done|]. destruct Hr as [?|[?|Hc]]; [tauto | tauto |].
  right; right. apply contains_spec in Hc.
  destruct (tags !! "craft") as [craft|]; simpl in Hc; [eauto|].
  destruct Hc as (pre & post & Hc). by destruct pre.
Qed.

Lemma accepted_business_type_witness :
  Extractor._is_motorcycle_repair_shop dealer_tags = true
  ∧ determine_business_type dealer_row = "Motorcycle Dealership".
Proof.
  split; [vm_compute; reflexivity|].
  refine (proj2 (proj1 (proj2
            (accepted_business_type dealer_tags "Germany" "1" "node" "52.52" "13.405" _)))
            _);
    [vm_compute; reflexivity|].
  split_and!; [vm_compute; reflexivity | vm_compute; discriminate
              | vm_compute; discriminate].
Defined.

End Labels.

(** ** The two country tables *)

Section Tables.
Import Converter.

Lemma country_map_entry (code full : string) :
  country_map !! code = Some full →
  Migrator.codes !! full = Some code
  ∧ Py.upper code = code
  ∧ is_clean full
  ∧ full ≠ "Unknown Country".
Proof.
  intros Hl. apply elem_of_list_to_map_2 in Hl.
  repeat (apply elem_of_cons in Hl as [[= -> ->]|Hl];
          [split_and!;
           [vm_compute; reflexivity | vm_compute; reflexivity
           | unfold is_clean; split_and!;
             [done | vm_compute; reflexivity | vm_compute; reflexivity]
           | done]|]).
  by apply elem_of_nil in Hl.
Qed.

Lemma codes_entry (full code : string) :
  Migrator.codes !! full = Some code → country_map !! code = Some full.
Proof.
  intros Hl. apply elem_of_list_to_map_2 in Hl.
  repeat (apply elem_of_cons in Hl as [[= -> ->]|Hl]; [vm_compute; reflexivity|]).
  by apply elem_of_nil in Hl.
Qed.

(** X7.  The table of the converter, from code to name, and the table of
    the migrator, from name to code, are inverse to one another: a code of
    the first table is given back by the second for its name, and a name of
    the second by the first for its code.  A name outside the table has the
    code "XX", and a text the converter's table does not have, in upper
    case, is its own name. *)
Theorem country_tables_inverse (code full : string) :
  (country_map !! code = Some full ↔ Migrator.codes !! full = Some code)
  ∧ (country_map !! code = Some full →
     get_country_name code = full
     ∧ Migrator._country_to_code (get_country_name code) = code)
  ∧ (Migrator.codes !! full = Some code →
     get_country_name (Migrator._country_to_code full) = full)
  ∧ (Migrator.codes !! full = None → Migrator._country_to_code full = "XX")
  ∧ (country_map !! Py.upper code = None → get_country_name code = code).
Proof.
  assert (Hname : country_map !! code = Some full → get_country_name code = full).
  { intros Hl. destruct (country_map_entry _ _ Hl) as (_ & Hu & _).
    unfold get_country_name. by rewrite Hu, Hl. }
  split_and!.
  - split; [by intros (? & _)%country_map_entry | apply codes_entry].
  - intros Hl. split; [by apply Hname|]. rewrite (Hname Hl).
    destruct (country_map_entry _ _ Hl) as (Hc & _).
    unfold Migrator._country_to_code. by rewrite Hc.
  - intros Hc. unfold Migrator._country_to_code. rewrite Hc. simpl.
    apply Hname. by apply codes_entry.
  - intros Hc. unfold Migrator._country_to_code. by rewrite Hc.
  - intros Hl. unfold get_country_name. by rewrite Hl.
Qed.

Lemma get_country_name_stripped (x : string) :
  x ≠ "" → Py.strip x = x →
  get_country_name x ≠ "" ∧ Py.strip (get_country_name x) = get_country_name x.
Proof.
  intros Hne Hs. unfold get_country_name.
  destruct (country_map !! Py.upper x) as [full|] eqn:Hl; simpl; [|done].
  by destruct (country_map_entry _ _ Hl) as (_ & _ & (? & ? & _) & _).
Qed.

End Tables.

(** ** The composed city, the index and the migrator *)

Section Composed.
Import Converter.
Implicit Types (row : Row) (s : shop) (records : list shop).

Lemma field_stripped row (k : string) : Py.strip (field row k) = field row k.
Proof. apply strip_idemp. Qed.

Lemma last_cons_Some {A} (x y : A) (l : list A) :
  last l = Some y → last (x :: l) = Some y.
Proof. by destruct l. Qed.

(** The piece after the last separator. *)
Lemma split_go_last (b : string) :
  Py.contains ", " b = false →
  ∀ n a, String.length a ≤ n →
    last (Py.split_go ", " 0 (a +:+ ", " +:+ b)).2 = Some b.
Proof.
  intros Hb. induction n as [|n IH]; intros a Hlen.
  - destruct a; [|simpl in Hlen; lia].
    by rewrite app_empty_l, (split_go_at_separator "," " " b), split_go_without.
  - destruct a as [|x a].
    { by rewrite app_empty_l, (split_go_at_separator "," " " b), split_go_without. }
    rewrite app_cons. cbn [Py.split_go].
    destruct (Py.startswith ", " (String x (a +:+ ", " +:+ b))) eqn:Hs.
    + destruct a as [|y a].
      { rewrite app_empty_l in Hs. cbn in Hs. by rewrite andb_false_r in Hs. }
      rewrite app_cons in Hs |- *. cbn [String.length Nat.sub Py.split_go].
      simpl in Hlen. specialize (IH a ltac:(lia)).
      destruct (Py.split_go ", " 0 (a +:+ ", " +:+ b)) as [p ps].
      by apply last_cons_Some.
    + simpl in Hlen. specialize (IH a ltac:(lia)).
      by destruct (Py.split_go ", " 0 (a +:+ ", " +:+ b)) as [p ps].
Qed.

Lemma split_last (a b : string) :
  Py.contains ", " b = false →
  last (Py.split ", " (a +:+ ", " +:+ b)) = Some b.
Proof.
  intros Hb. pose proof (split_go_last b Hb (String.length a) a (le_n _)) as Hl.
  unfold Py.split. destruct (Py.split_go ", " 0 (a +:+ ", " +:+ b)) as [p ps].
  by apply last_cons_Some.
Qed.

Lemma split_head (a b : string) :
  Py.contains ", " a = false →
  head (Py.split ", " (a +:+ ", " +:+ b)) = Some a.
Proof.
  intros Ha. unfold Py.split. by rewrite split_go_comma_space.
Qed.

Lemma composed_city_halves row s :
  parse_csv_row row = Py.Ok s →
  ∃ c n,
    city s = c +:+ ", " +:+ n
    ∧ c ≠ "" ∧ n ≠ ""
    ∧ Py.strip c = c ∧ Py.strip n = n
    ∧ (c = field row "address_city"
       ∨ (field row "address_city" = "" ∧ c = "Unknown City"))
    ∧ ((field row "address_country" ≠ ""
        ∧ n = get_country_name (field row "address_country"))
       ∨ (field row "address_country" = ""
          ∧ n = field row "source_country")
       ∨ (field row "address_country" = "" ∧ field row "source_country" = ""
          ∧ n = "Unknown Country")).
Proof.
  intros Hc%parse_csv_row_city. rewrite Hc. clear Hc. cbv zeta.
  pose proof (field_stripped row "address_city") as Hs1.
  pose proof (field_stripped row "address_country") as Hs2.
  pose proof (field_stripped row "source_country") as Hs3.
  set (city_name := field row "address_city") in *.
  set (country_code := field row "address_country") in *.
  set (source_country := field row "source_country") in *.
  assert (Hn : ∃ n,
    (if Py.truthy_str country_code then get_country_name country_code
     else if Py.truthy_str source_country then source_country else "")
    = (if Py.truthy_str n then n else "")
    ∧ Py.strip n = n
    ∧ ((country_code ≠ "" ∧ n = get_country_name country_code)
       ∨ (country_code = "" ∧ n = source_country))).
  { destruct (Py.truthy_str country_code) eqn:H2.
    - apply truthy_str_true in H2.
      destruct (get_country_name_stripped country_code H2 Hs2) as [Hne Hst].
      exists (get_country_name country_code).
      apply truthy_str_true in Hne. rewrite Hne. by eauto.
    - apply truthy_str_false in H2. exists source_country.
      destruct (Py.truthy_str source_country); by eauto. }
  destruct Hn as (n & -> & Hsn & Hcase).
  destruct (Py.truthy_str city_name) eqn:H1, (Py.truthy_str n) eqn:H2;
    cbv iota; rewrite ?H2; change (Py.truthy_str "") with false;
    cbn [andb]; cbv iota.
  - apply truthy_str_true in H1, H2. exists city_name, n.
    split_and!; try done; [by left | tauto].
  - apply truthy_str_true in H1. apply truthy_str_false in H2.
    exists city_name, "Unknown Country".
    split_and!; try done; [by left|].
    right; right. destruct Hcase as [[? Hg]|[? ?]].
    + destruct (get_country_name_stripped country_code) as [Hne _]; try done.
      congruence.
    + split_and!; congruence.
  - apply truthy_str_false in H1. apply truthy_str_true in H2.
    exists "Unknown City", n.
    split_and!; try done; [by right | tauto].
  - apply truthy_str_false in H1, H2.
    exists "Unknown City", "Unknown Country".
    split_and!; try done; [by right|].
    right; right. destruct Hcase as [[? Hg]|[? ?]].
    + destruct (get_country_name_stripped country_code) as [Hne _]; try done.
      congruence.
    + split_and!; congruence.
Qed.

(** X5.  The composed city of a normalized record always has the form
    "city, country": a city half and a country half around the separator,
    neither empty, neither with white space around it.  The city half is
    the stripped city field or the sentinel "Unknown City"; the country half
    is the name found for the stripped country field, or the stripped
    source_country field, or the sentinel "Unknown Country". *)
Theorem composed_city_shape row s :
  parse_csv_row row = Py.Ok s →
  ∃ c n,
    city s = c +:+ ", " +:+ n
    ∧ c ≠ "" ∧ n ≠ ""
    ∧ Py.strip c = c ∧ Py.strip n = n
    ∧ (c = field row "address_city"
       ∨ (field row "address_city" = "" ∧ c = "Unknown City"))
    ∧ ((field row "address_country" ≠ ""
        ∧ n = get_country_name (field row "address_country"))
       ∨ (field row "address_country" = ""
          ∧ n = field row "source_country")
       ∨ (field row "address_country" = "" ∧ field row "source_country" = ""
          ∧ n = "Unknown Country")).
Proof. apply composed_city_halves. Qed.

Lemma composed_city_shape_witness :
  parse_csv_row dealer_row = Py.Ok dealer_shop
  ∧ ∃ c n,
      city dealer_shop = c +:+ ", " +:+ n
      ∧ c ≠ "" ∧ n ≠ ""
      ∧ Py.strip c = c ∧ Py.strip n = n
      ∧ (c = field dealer_row "address_city"
         ∨ (field dealer_row "address_city" = "" ∧ c = "Unknown City"))
      ∧ ((field dealer_row "address_country" ≠ ""
          ∧ n = get_country_name (field dealer_row "address_country"))
         ∨ (field dealer_row "address_country" = ""
            ∧ n = field dealer_row "source_country")
         ∨ (field dealer_row "address_country" = ""
            ∧ field dealer_row "source_country" = ""
            ∧ n = "Unknown Country")).
Proof.
  split; [vm_compute; reflexivity|].
  apply (composed_city_shape dealer_row dealer_shop). vm_compute. reflexivity.
Defined.

End Composed.

Section Pipeline.
Import Converter.
Implicit Types (row : Row) (s : shop) (records : list shop).

(** X6.  No text field of a normalized record other than the name is ever
    empty: the address, the composed city, the phone, the website, the
    opening hours and the business type all have a value or a sentinel. *)
Theorem no_empty_field row s :
  parse_csv_row row = Py.Ok s →
  address s ≠ "" ∧ city s ≠ "" ∧ phone s ≠ "" ∧ website s ≠ ""
  ∧ hours s ≠ "" ∧ business_type s ≠ "".
Proof.
  intros Hp. pose proof (parse_csv_row_fields row s Hp) as (Ha & Hph & Hw & Hh & Hb & _).
  pose proof (parse_csv_row_city row s Hp) as Hc.
  split_and!.
  - rewrite Ha. destruct (row !! "address_street") as [street|]; [|done].
    destruct (Py.truthy_str street) eqn:Hs; [|done].
    apply truthy_str_true in Hs. cbv zeta.
    destruct (Py.truthy_str (Py.get_default (row !! "address_housenumber"))).
    + rewrite filter_truthy_singleton by by apply app_not_empty.
      by apply app_not_empty.
    + by rewrite filter_truthy_singleton.
  - assert (Happ : ∀ (a : string) (x : ascii) (b : string), a +:+ String x b ≠ "")
      by (by intros [|??] ??).
    rewrite Hc. cbv zeta. repeat case_match; try done; apply Happ.
  - rewrite Hph. do 2 apply get_or_not_empty. done.
  - rewrite Hw. by apply get_or_not_empty.
  - rewrite Hh. by apply get_or_not_empty.
  - rewrite Hb. unfold determine_business_type. by repeat case_match.
Qed.

Lemma no_empty_field_witness :
  parse_csv_row dealer_row = Py.Ok dealer_shop
  ∧ address dealer_shop ≠ "" ∧ city dealer_shop ≠ "" ∧ phone dealer_shop ≠ ""
  ∧ website dealer_shop ≠ "" ∧ hours dealer_shop ≠ ""
  ∧ business_type dealer_shop ≠ "".
Proof.
  split; [vm_compute; reflexivity|].
  apply (no_empty_field dealer_row dealer_shop). vm_compute. reflexivity.
Defined.

Lemma clean_contributes s (c n : string) :
  city s = c +:+ ", " +:+ n → is_clean c → is_clean n → contributes s n c.
Proof.
  intros Hc (Hc1 & Hc2 & Hc3) (Hn1 & Hn2 & Hn3). unfold contributes.
  rewrite Hc, contains_two_halves, split_two_halves by done. simpl.
  by rewrite Hc2, Hn2.
Qed.

(** X8.  A record whose composed city is "city, country", with both halves
    non-empty, without white space around them and without the separator
    inside, puts that city under that country in the index of every list of
    records it belongs to. *)
Theorem clean_city_is_indexed records s (c n : string) :
  s ∈ records → city s = c +:+ ", " +:+ n → is_clean c → is_clean n →
  ∃ cities, (n, cities) ∈ build_countries_dict records ∧ c ∈ cities.
Proof.
  intros Hin Hc Hcc Hcn.
  assert (in_index (foldl index_shop ∅ records) n c) as (cs & Hl & Hel).
  { apply foldl_index_shop_in. right. exists s. split; [done|].
    by apply clean_contributes. }
  exists (Py.sorted_str (elements cs)). split.
  - apply elem_of_build_countries_dict. eauto.
  - by apply elem_of_sorted_elements.
Qed.

Lemma clean_city_is_indexed_witness :
  ∃ cities, ("Germany", cities) ∈ build_countries_dict [dealer_shop]
            ∧ "Berlin" ∈ cities.
Proof.
  apply (clean_city_is_indexed [dealer_shop] dealer_shop "Berlin" "Germany").
  - apply list_elem_of_here.
  - reflexivity.
  - split_and!; [done | vm_compute; reflexivity | vm_compute; reflexivity].
  - split_and!; [done | vm_compute; reflexivity | vm_compute; reflexivity].
Defined.

End Pipeline.

(** ** The migrator *)

Section Migration.
Import Converter.
Implicit Types (row : Row) (s : shop) (t : Migrator.db_shop).

Lemma transform_shop_fields s :
  ∃ t, Migrator.transform_shop s = Some t
    ∧ Migrator.name t = Some (name s)
    ∧ Migrator.business_type t = business_type s
    ∧ Migrator.latitude t
      = (if Py.truthy_opt_float (latitude s) then latitude s else None)
    ∧ Migrator.longitude t
      = (if Py.truthy_opt_float (longitude s) then longitude s else None)
    ∧ Migrator.address_street t
      = (if Py.truthy_str (address s)
            && negb (bool_decide (address s = "Address not available"))
         then head (Py.split ", " (address s)) else None)
    ∧ Migrator.address_city t
      = Migrator.unless "Unknown City"
          (if Py.contains ", " (city s)
           then Some (Py.strip (default "" (head (Py.split ", " (city s)))))
           else None)
    ∧ Migrator.address_country t
      = Migrator.unless "Unknown Country"
          (if Py.contains ", " (city s)
           then Some (Py.strip (default "" (last (Py.split ", " (city s)))))
           else None)
    ∧ Migrator.phone t = Migrator.unless "N/A" (Some (phone s))
    ∧ Migrator.website t = Migrator.unless "N/A" (Some (website s))
    ∧ Migrator.opening_hours t
      = Migrator.unless "Hours not available" (Some (hours s)).
Proof.
  unfold Migrator.transform_shop.
  destruct (Py.contains ", " (city s)); eexists; (split; [reflexivity|]);
    split_and!; reflexivity.
Qed.

Lemma unless_sentinel (v : string) :
  Migrator.unless v (Some v) = None.
Proof. unfold Migrator.unless. by rewrite bool_decide_eq_true_2. Qed.

Lemma unless_other (sentinel v : string) :
  v ≠ sentinel → Migrator.unless sentinel (Some v) = Some v.
Proof.
  intros Hv. unfold Migrator.unless. rewrite bool_decide_eq_false_2; [done|].
  by intros [= ->].
Qed.

(** X9.  From a row to the shops table: the migrator always finds a row for
    a normalized record, with the same name and business type.  A phone, a
    website or opening hours that the row does not have come out as NULL,
    not as the sentinel the converter wrote; a value the row has, other than
    the sentinel text itself, comes out unchanged.  A row without a street
    has a NULL street, a row without a city a NULL city, and a row without
    country and source country a NULL country. *)
Theorem normalized_then_transformed row s :
  parse_csv_row row = Py.Ok s →
  ∃ t, Migrator.transform_shop s = Some t
    ∧ Migrator.name t = Some (name s)
    ∧ Migrator.business_type t = business_type s
    ∧ (Py.truthy_get (row !! "phone") = false →
       Py.truthy_get (row !! "mobile") = false → Migrator.phone t = None)
    ∧ (∀ v, row !! "phone" = Some v → v ≠ "" → v ≠ "N/A" →
         Migrator.phone t = Some v)
    ∧ (Py.truthy_get (row !! "website") = false → Migrator.website t = None)
    ∧ (∀ v, row !! "website" = Some v → v ≠ "" → v ≠ "N/A" →
         Migrator.website t = Some v)
    ∧ (Py.truthy_get (row !! "opening_hours") = false →
       Migrator.opening_hours t = None)
    ∧ (∀ v, row !! "opening_hours" = Some v → v ≠ "" →
         v ≠ "Hours not available" → Migrator.opening_hours t = Some v)
    ∧ (Py.truthy_get (row !! "address_street") = false →
       Migrator.address_street t = None)
    ∧ (field row "address_city" = "" → Migrator.address_city t = None)
    ∧ (field row "address_country" = "" → field row "source_country" = "" →
       Migrator.address_country t = None).
Proof.
  intros Hp.
  destruct (transform_shop_fields s)
    as (t & Ht & Hn & Hb & _ & _ & Hst & Hci & Hco & Hph & Hw & Hh).
  pose proof (parse_csv_row_fields row s Hp) as (Ha & Hph' & Hw' & Hh' & _).
  destruct (composed_city_halves row s Hp)
    as (c & n & Hc & Hc1 & Hn1 & Hc2 & Hn2 & Hcc & Hcn).
  exists t. split_and!; try done.
  - intros H1 H2. by rewrite Hph, Hph', !get_or_missing, unless_sentinel.
  - intros v Hv Hne Hna.
    by rewrite Hph, Hph', (get_or_present _ v), unless_other.
  - intros H1. by rewrite Hw, Hw', get_or_missing, unless_sentinel.
  - intros v Hv Hne Hna. by rewrite Hw, Hw', (get_or_present _ v), unless_other.
  - intros H1. by rewrite Hh, Hh', get_or_missing, unless_sentinel.
  - intros v Hv Hne Hna. by rewrite Hh, Hh', (get_or_present _ v), unless_other.
  - intros H1. rewrite Hst, Ha.
    destruct (row !! "address_street") as [street|]; [|done].
    simpl in H1. by rewrite H1.
  - intros He. destruct Hcc as [Hcc | [_ ->]]; [congruence|].
    rewrite Hci, Hc, contains_two_halves, split_head by done. simpl.
    apply unless_sentinel.
  - intros He1 He2. destruct Hcn as [[? _] | [[_ ->] | (_ & _ & ->)]]; try done.
    rewrite Hco, Hc, contains_two_halves, split_last by done. simpl.
    apply unless_sentinel.
Qed.

Lemma normalized_then_transformed_witness :
  parse_csv_row dealer_row = Py.Ok dealer_shop
  ∧ ∃ t, Migrator.transform_shop dealer_shop = Some t
      ∧ Migrator.website t = None
      ∧ Migrator.opening_hours t = None.
Proof.
  split; [vm_compute; reflexivity|].
  destruct (normalized_then_transformed dealer_row dealer_shop)
    as (t & Ht & _ & _ & _ & _ & Hw & _ & Hh & _); [vm_compute; reflexivity|].
  exists t. split_and!; [done | apply Hw | apply Hh]; vm_compute; reflexivity.
Defined.

(** X10.  The city and the country of the shops table are the two halves of
    the composed city when these are non-empty, without white space around
    them and without the separator inside, except that the sentinels
    "Unknown City" and "Unknown Country" become NULL.  A composed city
    without the separator gives a NULL city and a NULL country. *)
Theorem transformed_city_country s t :
  Migrator.transform_shop s = Some t →
  (∀ c n, city s = c +:+ ", " +:+ n → is_clean c → is_clean n →
     Migrator.address_city t = (if decide (c = "Unknown City") then None else Some c)
     ∧ Migrator.address_country t
       = (if decide (n = "Unknown Country") then None else Some n))
  ∧ (Py.contains ", " (city s) = false →
     Migrator.address_city t = None ∧ Migrator.address_country t = None).
Proof.
  intros Ht.
  destruct (transform_shop_fields s) as (t' & Ht' & _ & _ & _ & _ & _ & Hci & Hco & _).
  assert (t' = t) as -> by congruence. split.
  - intros c n Hc (Hc1 & Hc2 & Hc3) (Hn1 & Hn2 & Hn3).
    rewrite Hci, Hco, Hc, contains_two_halves, split_two_halves by done. simpl.
    rewrite Hc2, Hn2. split.
    + destruct (decide (c = "Unknown City")) as [->|Hne];
        [apply unless_sentinel | by apply unless_other].
    + destruct (decide (n = "Unknown Country")) as [->|Hne];
        [apply unless_sentinel | by apply unless_other].
  - intros Hno. by rewrite Hci, Hco, Hno.
Qed.

Lemma transformed_city_country_witness :
  ∃ t, Migrator.transform_shop dealer_shop = Some t
       ∧ Migrator.address_city t = Some "Berlin"
       ∧ Migrator.address_country t = Some "Germany".
Proof.
  destruct (transform_shop_fields dealer_shop) as (t & Ht & _).
  exists t. split; [done|].
  refine (proj1 (transformed_city_country dealer_shop t Ht) "Berlin" "Germany" _ _ _).
  - reflexivity.
  - split_and!; [done | vm_compute; reflexivity | vm_compute; reflexivity].
  - split_and!; [done | vm_compute; reflexivity | vm_compute; reflexivity].
Defined.

End Migration.

(** ** The loops of the migrator and of the converter *)

Section Loops.
Import Converter.
Implicit Types (row : Row) (s : shop) (t : Migrator.db_shop).

Lemma prepare_shop_spec (ts : list Migrator.db_shop) (n : nat) s :
  Migrator.prepare_shop (ts, n) s
  = (ts ++ option_list (uploaded_of s), n + failed_of s).
Proof.
  unfold Migrator.prepare_shop, failed_of, uploaded_of.
  destruct (Migrator.transform_shop s) as [t|];
    [destruct (Migrator.valid (Some t))|]; simpl;
    by rewrite ?(right_id_L [] (++)), ?Nat.add_0_r.
Qed.

Lemma foldl_prepare_shop (l : list shop) (ts : list Migrator.db_shop) (n : nat) :
  foldl Migrator.prepare_shop (ts, n) l
  = (ts ++ omap uploaded_of l, n + sum_list (failed_of <$> l)).
Proof.
  revert ts n. induction l as [|s l IH]; intros ts n; cbn [foldl].
  - simpl. by rewrite (right_id_L [] (++)), Nat.add_0_r.
  - rewrite prepare_shop_spec, IH, <- (assoc_L (++)). simpl.
    f_equal; [|symmetry; apply Nat.add_assoc]. f_equal.
    by destruct (uploaded_of s).
Qed.

Lemma migrate_shops_spec (l : list shop) :
  Migrator.migrate_shops l = (omap uploaded_of l, sum_list (failed_of <$> l)).
Proof. unfold Migrator.migrate_shops. by rewrite foldl_prepare_shop. Qed.

Lemma uploaded_of_Some s t :
  uploaded_of s = Some t →
  Migrator.transform_shop s = Some t
  ∧ Py.truthy_opt_float (latitude s) = true
  ∧ Py.truthy_opt_float (longitude s) = true
  ∧ Migrator.latitude t = latitude s
  ∧ Migrator.longitude t = longitude s.
Proof.
  unfold uploaded_of.
  destruct (transform_shop_fields s) as (t' & -> & _ & _ & Hlat & Hlon & _).
  unfold Migrator.valid. rewrite Hlat, Hlon.
  destruct (Py.truthy_opt_float (latitude s)) eqn:H1,
    (Py.truthy_opt_float (longitude s)) eqn:H2;
    rewrite ?H1, ?H2; simpl; try done.
  by intros [= <-].
Qed.

Lemma accepted_is_uploaded skip_unnamed s :
  accepts skip_unnamed s = true → is_Some (uploaded_of s).
Proof.
  unfold accepts. rewrite !andb_true_iff. intros [[_ H1] H2].
  unfold uploaded_of.
  destruct (transform_shop_fields s) as (t & -> & _ & _ & Hlat & Hlon & _).
  unfold Migrator.valid. rewrite Hlat, Hlon, H1, H2, H1, H2. simpl. eauto.
Qed.

(** X11.  The first loop of the migrator sorts every shop into one of two
    groups: the rows to upload and the shops counted as failed together are
    as many as the shops read.  A row to upload has both coordinates, the
    ones of its shop, and neither is zero. *)
Theorem migrate_shops_counts (l : list shop) :
  length (Migrator.migrate_shops l).1 + (Migrator.migrate_shops l).2 = length l
  ∧ (∀ t, t ∈ (Migrator.migrate_shops l).1 →
       Py.truthy_opt_float (Migrator.latitude t) = true
       ∧ Py.truthy_opt_float (Migrator.longitude t) = true
       ∧ ∃ s, s ∈ l ∧ Migrator.transform_shop s = Some t
              ∧ Migrator.latitude t = latitude s
              ∧ Migrator.longitude t = longitude s).
Proof.
  rewrite migrate_shops_spec. cbn [fst snd]. split.
  - induction l as [|s l IH]; [done|].
    cbn [omap list_omap fmap list_fmap sum_list_with].
    unfold failed_of at 1. destruct (uploaded_of s); simpl in *; lia.
  - intros t (s & Hin & Hup)%list_elem_of_omap.
    apply uploaded_of_Some in Hup as (Ht & H1 & H2 & Hlat & Hlon).
    rewrite Hlat, Hlon. eauto 10.
Qed.

(** X12.  What the converter accepts, the migrator accepts: on the accepted
    records of a conversion, whatever the setting of the unnamed filter, the
    migrator counts no failed shop and prepares one row for each record. *)
Theorem converted_shops_all_migrate (skip_unnamed : bool) (rows : list Row) :
  (Migrator.migrate_shops (convert_rows skip_unnamed rows).1).2 = 0
  ∧ length (Migrator.migrate_shops (convert_rows skip_unnamed rows).1).1
    = length (convert_rows skip_unnamed rows).1.
Proof.
  assert (Hall : ∀ s, s ∈ (convert_rows skip_unnamed rows).1 → is_Some (uploaded_of s)).
  { intros s [Ha _]%accepted_elem_of. by eapply accepted_is_uploaded. }
  rewrite migrate_shops_spec. cbn [fst snd].
  induction (convert_rows skip_unnamed rows).1 as [|s l IH]; [done|].
  cbn [omap list_omap fmap list_fmap sum_list_with].
  destruct (Hall s) as [t Ht]; [apply list_elem_of_here|].
  destruct IH as [IH1 IH2]; [intros s' Hs'; apply Hall; by apply list_elem_of_further|].
  unfold failed_of at 1. rewrite Ht. simpl in *. by rewrite IH1, IH2.
Qed.

(** X13.  The conversion of two lists of rows one after the other is the
    conversion of each: the accepted records of the first followed by the
    accepted records of the second, and the sum of the two skip counts. *)
Theorem convert_rows_app (skip_unnamed : bool) (rows1 rows2 : list Row) :
  convert_rows skip_unnamed (rows1 ++ rows2)
  = ((convert_rows skip_unnamed rows1).1 ++ (convert_rows skip_unnamed rows2).1,
     (convert_rows skip_unnamed rows1).2 + (convert_rows skip_unnamed rows2).2).
Proof.
  rewrite !convert_rows_spec. cbn [fst snd].
  by rewrite omap_app, fmap_app, sum_list_with_app.
Qed.

Lemma accepted_of_filter row s :
  accepted_of true row = Some s ↔
  accepted_of false row = Some s ∧ name s ≠ "Unnamed Shop" ∧ name s ≠ "".
Proof.
  unfold accepted_of, accepts. destruct (parse_csv_row row) as [s'|].
  2: { split; [done | by intros [? _]]. }
  cbn [andb negb].
  destruct (Py.truthy_opt_float (latitude s') && Py.truthy_opt_float (longitude s'))
    eqn:Hco.
  2: { rewrite <- andb_assoc, Hco, andb_false_r. split; [done | by intros [? _]]. }
  rewrite <- andb_assoc, Hco, andb_true_r.
  destruct (bool_decide (name s' = "Unnamed Shop")) eqn:H1; cbn [orb negb].
  { apply bool_decide_eq_true in H1. split; [done|]. intros ([= <-] & ? & _). done. }
  apply bool_decide_eq_false in H1.
  destruct (Py.truthy_str (name s')) eqn:H2; cbn [negb].
  - apply truthy_str_true in H2. split; [by intros [= <-] | by intros [? _]].
  - apply truthy_str_false in H2. split; [done|]. intros ([= <-] & _ & ?). done.
Qed.

(** X14.  The unnamed filter only removes records: the list accepted with
    the filter on is the list accepted with the filter off without its
    records named by the sentinel "Unnamed Shop" or by the empty string,
    each remaining record as often and in the same order.  The rows skipped
    with the filter on are those skipped with the filter off and one more
    for each record removed. *)
Theorem unnamed_filter_only_removes (rows : list Row) :
  (convert_rows true rows).1
  = filter (λ s, name s ≠ "Unnamed Shop" ∧ name s ≠ "") (convert_rows false rows).1
  ∧ (convert_rows true rows).2
    = (convert_rows false rows).2
      + length (filter (λ s, ¬ (name s ≠ "Unnamed Shop" ∧ name s ≠ ""))
                  (convert_rows false rows).1).
Proof.
  rewrite !convert_rows_spec. cbn [fst snd].
  induction rows as [|row rows [IH1 IH2]]; [done|].
  cbn [omap list_omap fmap list_fmap sum_list_with].
  fold (sum_list (skipped_of true <$> rows)) in *.
  fold (sum_list (skipped_of false <$> rows)) in *.
  unfold skipped_of at 1 3.
  destruct (accepted_of false row) as [s|] eqn:Hf.
  - rewrite !filter_cons.
    destruct (decide (name s ≠ "Unnamed Shop" ∧ name s ≠ "")) as [Hp|Hp].
    + assert (Ht : accepted_of true row = Some s) by (by apply accepted_of_filter).
      rewrite Ht, decide_False by (by intros ?). split; [by f_equal|].
      cbn [id]. lia.
    + rewrite decide_True by done.
      destruct (accepted_of true row) as [s'|] eqn:Ht.
      { apply accepted_of_filter in Ht as (Hs & ? & ?). simplify_eq.
        by destruct Hp. }
      split; [done|]. cbn [length id]. lia.
  - destruct (accepted_of true row) as [s'|] eqn:Ht.
    { apply accepted_of_filter in Ht as [Hs _]. congruence. }
    split; [done|]. cbn [id]. lia.
Qed.

End Loops.

(** ** The upload in batches *)

Section Upload.
Context {A : Type}.
Implicit Types (l : list A) (bs : nat).

Lemma ceil_bounds (len bs : nat) :
  0 < bs →
  len ≤ (len + bs - 1) `div` bs * bs
  ∧ (0 < len → ((len + bs - 1) `div` bs - 1) * bs < len)
  ∧ (0 < (len + bs - 1) `div` bs → 0 < len).
Proof.
  intros Hbs.
  pose proof (Nat.Div0.mul_div_le (len + bs - 1) bs) as H1.
  pose proof (Nat.mul_succ_div_gt (len + bs - 1) bs ltac:(lia)) as H2.
  set (q := (len + bs - 1) `div` bs) in *.
  split_and!; [nia | destruct q; nia |].
  intros Hq. destruct len; [|lia]. subst q.
  rewrite Nat.div_small in Hq; lia.
Qed.

Lemma concat_slices l bs (a n : nat) :
  concat ((λ j : nat, take bs (drop (j * bs) l)) <$> seq a n)
  = take (n * bs) (drop (a * bs) l).
Proof.
  revert a. induction n as [|n IH]; intros a; [done|].
  cbn [seq fmap list_fmap concat]. rewrite IH.
  replace (S a * bs) with (a * bs + bs) by lia.
  by rewrite <- drop_drop, take_take_drop.
Qed.

Lemma length_concat_sum (L : list (list A)) :
  length (concat L) = sum_list_with length L.
Proof.
  induction L as [|b L IH]; [done|]. simpl. by rewrite length_app, IH.
Qed.

Lemma sum_imap_le (g : nat → list A → nat) (L : list (list A)) :
  (∀ j b, g j b ≤ length b) → sum_list (imap g L) ≤ sum_list_with length L.
Proof.
  revert g. induction L as [|b L IH]; intros g Hg; [done|].
  rewrite imap_cons. cbn [sum_list_with]. unfold id at 1.
  specialize (IH (g ∘ S) ltac:(intros; apply Hg)). specialize (Hg 0 b). lia.
Qed.

Lemma sum_imap_eq (g : nat → list A → nat) (L : list (list A)) :
  (∀ j b, g j b = length b) → sum_list (imap g L) = sum_list_with length L.
Proof.
  revert g. induction L as [|b L IH]; intros g Hg; [done|].
  rewrite imap_cons. cbn [sum_list_with]. unfold id at 1.
  by rewrite (IH (g ∘ S)), Hg by (intros; apply Hg).
Qed.

Lemma batches_partition_sum l bs :
  0 < bs →
  sum_list_with length (batches bs l) = length l
  ∧ concat (batches bs l) = l.
Proof.
  intros Hbs. destruct (ceil_bounds (length l) bs Hbs) as (Hc1 & _).
  assert (concat (batches bs l) = l) as Hc.
  { unfold batches. rewrite concat_slices. simpl. rewrite drop_0. by apply take_ge. }
  split; [|done]. by rewrite <- length_concat_sum, Hc.
Qed.

(** X16.  For a positive batch size the batches cut the list into
    consecutive slices: put end to end they give the list back, none is
    empty, none has more rows than the batch size, and all but the last have
    exactly that many. *)
Theorem batches_partition l bs :
  0 < bs →
  concat (batches bs l) = l
  ∧ (∀ b, b ∈ batches bs l → 0 < length b ≤ bs)
  ∧ (∀ j b, batches bs l !! j = Some b → S j < length (batches bs l) →
       length b = bs).
Proof.
  intros Hbs. destruct (ceil_bounds (length l) bs Hbs) as (Hc1 & Hc2 & Hc3).
  unfold batches. set (q := (length l + bs - 1) `div` bs) in *. split_and!.
  - rewrite concat_slices. simpl. rewrite drop_0. by apply take_ge.
  - intros b (j & -> & Hj%elem_of_seq)%list_elem_of_fmap.
    rewrite length_take, length_drop. clearbody q.
    specialize (Hc2 (Hc3 ltac:(lia))). nia.
  - intros j b Hb Hlen. rewrite length_fmap, length_seq in Hlen.
    apply list_lookup_fmap_Some in Hb as (j' & -> & Hj%lookup_seq).
    destruct Hj as [-> _]. rewrite length_take, length_drop. clearbody q.
    specialize (Hc2 (Hc3 ltac:(lia))). nia.
Qed.

End Upload.

Lemma batches_partition_witness :
  concat (batches 2 [1; 2; 3; 4; 5]) = [1; 2; 3; 4; 5]
  ∧ (∀ b, b ∈ batches 2 [1; 2; 3; 4; 5] → 0 < length b ≤ 2)
  ∧ (∀ j b, batches 2 [1; 2; 3; 4; 5] !! j = Some b →
       S j < length (batches 2 [1; 2; 3; 4; 5]) → length b = 2).
Proof. apply (batches_partition (A:=nat) [1; 2; 3; 4; 5] 2). lia. Defined.

Section UploadLoop.
Implicit Types (insert : nat → list Migrator.db_shop → bool).
Implicit Types (l : list Migrator.db_shop).

Lemma foldl_upload_batch insert (bs : nat) l (a n m : nat) :
  0 < bs →
  foldl (Migrator.upload_batch insert bs l) m ((λ j, j * bs) <$> seq a n)
  = m + sum_list
          (imap (λ j b, if insert (S (a + j)) b then length b else 0)
             ((λ j : nat, take bs (drop (j * bs) l)) <$> seq a n)).
Proof.
  intros Hbs. revert a m. induction n as [|n IH]; intros a m.
  - simpl. lia.
  - cbn [seq fmap list_fmap foldl]. rewrite IH, imap_cons.
    cbn [sum_list_with]. unfold id at 2.
    unfold Migrator.upload_batch at 1.
    rewrite (Nat.div_mul a bs) by lia.
    replace (a + 1) with (S (a + 0)) by lia.
    rewrite (imap_ext ((λ j b, if insert (S (a + j)) b then length b else 0) ∘ S)
               (λ j b, if insert (S (S a + j)) b then length b else 0)).
    2: { intros j b _. simpl. by replace (a + S j) with (S (a + j)) by lia. }
    destruct (insert (S (a + 0)) _); lia.
Qed.

(** X15.  The upload loop asks the database for one insert per batch,
    numbered from 1, and a batch whose insert raises does not stop the
    loop: the number of shops counted as migrated is the sum of the sizes
    of the batches whose insert returned.  It is never more than the number
    of rows, and equal to it when every insert returns.  A batch size of
    zero raises ZeroDivisionError; a negative batch size uploads nothing
    and counts 0. *)
Theorem upload_batches_counts insert (batch_size : Z) l :
  (batch_size = 0%Z → Migrator.upload_batches insert batch_size l
                      = Migrator.ZeroDivisionError)
  ∧ ((batch_size < 0)%Z → Migrator.upload_batches insert batch_size l
                          = Migrator.Uploaded 0)
  ∧ ((0 < batch_size)%Z →
     ∃ m, Migrator.upload_batches insert batch_size l = Migrator.Uploaded m
          ∧ m = sum_list
                  (imap (λ j b, if insert (S j) b then length b else 0)
                     (batches (Z.to_nat batch_size) l))
          ∧ m ≤ length l
          ∧ ((∀ j b, insert j b = true) → m = length l)).
Proof.
  unfold Migrator.upload_batches, Py.range_from_0. split_and!.
  - intros ->. done.
  - intros Hneg. rewrite bool_decide_eq_false_2 by lia.
    by rewrite bool_decide_eq_true_2 by lia.
  - intros Hpos. rewrite !bool_decide_eq_false_2 by lia.
    set (bs := Z.to_nat batch_size). assert (0 < bs) as Hbs by lia.
    eexists. split; [reflexivity|].
    rewrite (foldl_upload_batch insert bs l 0 _ 0 Hbs). cbn [Nat.add].
    fold (batches bs l).
    destruct (batches_partition_sum l bs Hbs) as [Hsum _].
    split_and!; [done | |].
    + rewrite <- Hsum. apply sum_imap_le. intros j b. destruct (insert _ _); lia.
    + intros Hall. rewrite <- Hsum. apply sum_imap_eq. intros j b. by rewrite Hall.
Qed.

End UploadLoop.

(** ** From the downloaded file to the source country *)

Section Download.

Lemma split_go_slash_last (b : string) :
  Py.contains "/" b = false →
  ∀ a, last (Py.split_go "/" 0 (a +:+ "/" +:+ b)).2 = Some b.
Proof.
  intros Hb. induction a as [|x a IH].
  - by rewrite app_empty_l, (split_go_at_separator "/" "" b), split_go_without.
  - rewrite app_cons. cbn [Py.split_go String.length Nat.sub].
    destruct (Py.startswith "/" (String x (a +:+ "/" +:+ b)));
      destruct (Py.split_go "/" 0 (a +:+ "/" +:+ b)) as [p ps]; [|done].
    by apply last_cons_Some.
Qed.

(** The name of a path that ends in a slash and a file name. *)
Lemma path_name_join (dir file : string) :
  Py.contains "/" file = false → file ≠ "" → file ≠ "." →
  Py.path_name (dir +:+ "/" +:+ file) = file.
Proof.
  intros Hf Hne Hdot. unfold Py.path_name, Py.split.
  pose proof (split_go_slash_last file Hf dir) as Hl.
  destruct (Py.split_go "/" 0 (dir +:+ "/" +:+ file)) as [p ps].
  cbn [snd] in Hl. apply last_Some in Hl as [ps' ->].
  rewrite app_comm_cons, filter_app.
  assert (filter (λ part : string, part ≠ "" ∧ part ≠ ".") [file] = [file]) as ->.
  { by rewrite filter_cons, decide_True. }
  by rewrite last_snoc.
Qed.

(** X17.  Every country the downloader accepts, in any letter case, has a
    file whose path gives [process_pbf_file] a source country that both
    tables know: it is a name of the migrator's table, and its code there
    is the code of that name in the converter's table.  So a shop without a
    country tag is filed under the same name as a shop with the tag. *)
Theorem downloaded_file_source_country (country dir file : string) :
  Extractor.download_country_file country = Py.Ok file →
  ∃ code,
    Migrator.codes !! Extractor.source_country_name (dir +:+ "/" +:+ file)
      = Some code
    ∧ Converter.country_map !! code
      = Some (Extractor.source_country_name (dir +:+ "/" +:+ file)).
Proof.
  unfold Extractor.download_country_file.
  destruct (Extractor.EU_COUNTRIES !! Py.lower country) as [path|] eqn:Hl; [|done].
  intros [= <-]. apply elem_of_list_to_map_2 in Hl.
  unfold Extractor.source_country_name, Py.path_stem.
  repeat (apply elem_of_cons in Hl as [[= _ ->]|Hl];
          [rewrite path_name_join by (vm_compute; done);
           eexists; split; vm_compute; reflexivity|]).
  by apply elem_of_nil in Hl.
Qed.

Lemma downloaded_file_source_country_witness :
  Extractor.download_country_file "Czech-Republic"
    = Py.Ok "czech-republic-latest.osm.pbf"
  ∧ ∃ code,
      Migrator.codes
        !! Extractor.source_country_name
             ("osm_downloads" +:+ "/" +:+ "czech-republic-latest.osm.pbf")
        = Some code
      ∧ Converter.country_map !! code
        = Some (Extractor.source_country_name
                  ("osm_downloads" +:+ "/" +:+ "czech-republic-latest.osm.pbf")).
Proof.
  split; [vm_compute; reflexivity|].
  apply (downloaded_file_source_country "Czech-Republic" "osm_downloads").
  vm_compute. reflexivity.
Defined.

End Download.

(** ** The lookup tables of the migrator *)

Section LookupTables.
Import Migrator.
Implicit Types (insert_country : nat → string → string → option Z).
Implicit Types (insert_city : nat → string → Z → bool).
Implicit Types (t : lookup_tables) (countries_data : list (string * list string)).

Lemma foldl_create_country insert_country (names : list string) t :
  let t' := foldl (create_country insert_country) t names in
  country_inserts t'
  = country_inserts t ++ ((λ n, (n, _country_to_code n)) <$> names)
  ∧ city_inserts t' = city_inserts t
  ∧ cities_created t' = cities_created t
  ∧ countries_created t' ≤ countries_created t + length names
  ∧ (∀ n, is_Some (country_map t' !! n) →
          is_Some (country_map t !! n) ∨ n ∈ names).
Proof.
  revert t. induction names as [|n names IH]; intros t; cbn [foldl].
  - cbn zeta. rewrite fmap_nil, app_nil_r. split_and!; [done..|lia|by left].
  - destruct (IH (create_country insert_country t n)) as (H1 & H2 & H3 & H4 & H5).
    cbn zeta. rewrite H1, H2, H3. rewrite fmap_cons.
    assert (Hdom : ∀ m, is_Some (country_map (create_country insert_country t n) !! m)
                        → is_Some (country_map t !! m) ∨ m = n).
    { intros m. unfold create_country.
      destruct (insert_country _ _ _); cbn; [|by left].
      destruct (decide (m = n)) as [->|Hne]; [by right|].
      rewrite lookup_insert_ne by done. by left. }
    assert (Hcount : countries_created (create_country insert_country t n)
                     ≤ countries_created t + 1).
    { unfold create_country. destruct (insert_country _ _ _); cbn; lia. }
    assert (Hins : country_inserts (create_country insert_country t n)
                   = country_inserts t ++ [(n, _country_to_code n)]).
    { unfold create_country. by destruct (insert_country _ _ _). }
    assert (Hcity : city_inserts (create_country insert_country t n) = city_inserts t
                    ∧ cities_created (create_country insert_country t n)
                      = cities_created t).
    { unfold create_country. by destruct (insert_country _ _ _). }
    destruct Hcity as [Hc1 Hc2]. rewrite Hins, Hc1, Hc2.
    rewrite <- (assoc_L (++)). cbn [app length]. split_and!; try done; [lia|].
    intros m Hm. destruct (H5 m Hm) as [Hm'|Hm'].
    + destruct (Hdom m Hm') as [?| ->]; [by left|right; left].
    + right. by right.
Qed.

Lemma foldl_create_city insert_city (country_id : Z) (cities : list string) t :
  let t' := foldl (create_city insert_city country_id) t cities in
  country_map t' = country_map t
  ∧ countries_created t' = countries_created t
  ∧ country_inserts t' = country_inserts t
  ∧ city_inserts t'
    = city_inserts t
      ++ ((λ c, (c, country_id)) <$> filter (λ c, c ≠ "Unknown City") cities)
  ∧ cities_created t' + length (city_inserts t)
    ≤ cities_created t + length (city_inserts t').
Proof.
  revert t. induction cities as [|c cities IH]; intros t; cbn [foldl].
  - cbn zeta. rewrite filter_nil, fmap_nil, app_nil_r. split_and!; done.
  - destruct (IH (create_city insert_city country_id t c))
      as (H1 & H2 & H3 & H4 & H5).
    cbn zeta. rewrite H1, H2, H3, H4 in *. clear H1 H2 H3 H4 IH.
    rewrite filter_cons.
    unfold create_city in *. case_bool_decide as Hc.
    + rewrite decide_False by (by intros ?). split_and!; done.
    + rewrite decide_True by done. cbn [country_map countries_created
        country_inserts city_inserts cities_created] in *.
      rewrite fmap_cons, <- (assoc_L (++)). cbn [app].
      split_and!; try done.
      rewrite !length_app in *. cbn [length app] in *.
      destruct (insert_city _ _ _); lia.
Qed.

Lemma foldl_create_cities insert_city countries_data t :
  let t' := foldl (create_cities insert_city) t countries_data in
  country_map t' = country_map t
  ∧ countries_created t' = countries_created t
  ∧ country_inserts t' = country_inserts t
  ∧ city_inserts t'
    = city_inserts t ++ (countries_data ≫= asked_cities (country_map t))
  ∧ cities_created t' + length (city_inserts t)
    ≤ cities_created t + length (city_inserts t').
Proof.
  revert t. induction countries_data as [|[country cities] data IH]; intros t;
    cbn [foldl].
  - cbn zeta. cbn [mbind list_bind]. rewrite app_nil_r. split_and!; done.
  - destruct (IH (create_cities insert_city t (country, cities)))
      as (H1 & H2 & H3 & H4 & H5).
    cbn zeta. rewrite H1, H2, H3, H4 in *. clear H1 H2 H3 H4 IH.
    rewrite bind_cons. unfold create_cities, asked_cities in *. cbn [fst snd] in *.
    destruct (country_map t !! country) as [country_id|].
    2: { rewrite app_nil_l. split_and!; done. }
    case_bool_decide.
    { rewrite app_nil_l. split_and!; done. }
    destruct (foldl_create_city insert_city country_id cities t)
      as (G1 & G2 & G3 & G4 & G5).
    cbn zeta in *. rewrite G1, G2, G3, G4 in *.
    rewrite <- (assoc_L (++)). split_and!; try done.
    rewrite !length_app in *. lia.
Qed.

(** X18.  [migrate_countries_and_cities] asks the database for one insert per
    country of the index, in the sorted order of the names, each with the
    code [_country_to_code] gives for it, whatever the earlier inserts did.
    The countries it counts as created are no more than the countries of
    the index, and the map it returns holds countries of the index only. *)
Theorem one_insert_per_country insert_country insert_city countries_data :
  let t := migrate_countries_and_cities insert_country insert_city countries_data in
  country_inserts t
  = (λ n, (n, _country_to_code n)) <$> Py.sorted_str countries_data.*1
  ∧ countries_created t ≤ length countries_data
  ∧ ∀ n, is_Some (country_map t !! n) → n ∈ countries_data.*1.
Proof.
  unfold migrate_countries_and_cities.
  set (t0 := {| country_map := ∅; countries_created := 0; cities_created := 0;
                country_inserts := []; city_inserts := [] |}).
  destruct (foldl_create_country insert_country (Py.sorted_str countries_data.*1) t0)
    as (H1 & _ & _ & H4 & H5).
  destruct (foldl_create_cities insert_city countries_data
              (foldl (create_country insert_country) t0
                 (Py.sorted_str countries_data.*1)))
    as (G1 & G2 & G3 & _).
  cbn zeta in *. rewrite G1, G2, G3. split_and!.
  - by rewrite H1.
  - etrans; [apply H4|]. cbn [countries_created t0].
    rewrite (Permutation_length (sorted_str_permutation _)), length_fmap. lia.
  - intros n Hn. destruct (H5 n Hn) as [Hn'|Hn'].
    + cbn [country_map t0] in Hn'. rewrite lookup_empty in Hn'.
      by destruct Hn'.
    + by rewrite (sorted_str_permutation _) in Hn'.
Qed.

(** X19.  Every insert of a city that [migrate_countries_and_cities] asks for
    names a city other than "Unknown City", listed in the index under a
    country whose insert returned the identifier sent with the city, and
    that identifier is not zero. *)
Theorem city_insert_has_country insert_country insert_city countries_data
    (city_name : string) (country_id : Z) :
  let t := migrate_countries_and_cities insert_country insert_city countries_data in
  (city_name, country_id) ∈ city_inserts t →
  city_name ≠ "Unknown City" ∧ country_id ≠ 0%Z
  ∧ ∃ country_name cities,
      (country_name, cities) ∈ countries_data ∧ city_name ∈ cities
      ∧ country_map t !! country_name = Some country_id.
Proof.
  unfold migrate_countries_and_cities.
  set (t0 := {| country_map := ∅; countries_created := 0; cities_created := 0;
                country_inserts := []; city_inserts := [] |}).
  destruct (foldl_create_country insert_country (Py.sorted_str countries_data.*1) t0)
    as (_ & H2 & _).
  destruct (foldl_create_cities insert_city countries_data
              (foldl (create_country insert_country) t0
                 (Py.sorted_str countries_data.*1)))
    as (G1 & _ & _ & G4 & _).
  cbn zeta in *. rewrite G1, G4, H2. cbn [city_inserts t0 app].
  intros Hin. apply list_elem_of_bind in Hin as ([country cities] & Hin & Hitem).
  unfold asked_cities in Hin. cbn [fst snd] in Hin.
  destruct (country_map _ !! country) as [id|] eqn:Hid; [|by apply elem_of_nil in Hin].
  case_bool_decide as Hz; [by apply elem_of_nil in Hin|].
  apply list_elem_of_fmap in Hin as (c & [= -> ->] & Hc).
  apply list_elem_of_filter in Hc as [Hc1 Hc2].
  split_and!; [done..|]. by exists country, cities.
Qed.

Lemma city_insert_has_country_witness :
  ("Berlin", 8%Z)
    ∈ city_inserts (migrate_countries_and_cities no_france any_city two_countries)
  ∧ "Berlin" ≠ "Unknown City" ∧ 8%Z ≠ 0%Z
  ∧ ∃ country_name cities,
      (country_name, cities) ∈ two_countries ∧ "Berlin" ∈ cities
      ∧ country_map (migrate_countries_and_cities no_france any_city two_countries)
          !! country_name = Some 8%Z.
Proof.
  assert (Hin : ("Berlin", 8%Z)
    ∈ city_inserts (migrate_countries_and_cities no_france any_city two_countries)).
  { vm_compute. left. }
  split; [exact Hin|].
  exact (city_insert_has_country no_france any_city two_countries "Berlin" 8 Hin).
Defined.

(** X20.  The cities that [migrate_countries_and_cities] counts as created
    are no more than the inserts of cities it asked for, and these are, in
    the order of the index, the cities other than "Unknown City" of the
    countries that the returned map gives an identifier other than zero. *)
Theorem city_inserts_of_index insert_country insert_city countries_data :
  let t := migrate_countries_and_cities insert_country insert_city countries_data in
  city_inserts t = countries_data ≫= asked_cities (country_map t)
  ∧ cities_created t ≤ length (city_inserts t).
Proof.
  unfold migrate_countries_and_cities.
  set (t0 := {| country_map := ∅; countries_created := 0; cities_created := 0;
                country_inserts := []; city_inserts := [] |}).
  destruct (foldl_create_country insert_country (Py.sorted_str countries_data.*1) t0)
    as (_ & H2 & H3 & _).
  destruct (foldl_create_cities insert_city countries_data
              (foldl (create_country insert_country) t0
                 (Py.sorted_str countries_data.*1)))
    as (G1 & _ & _ & G4 & G5).
  cbn zeta in *. rewrite G1, G4, H2 in *. rewrite H3 in G5.
  cbn [city_inserts cities_created t0 app length] in *. split; [done|lia].
Qed.

End LookupTables.
